(** * gumroad-download: the fetch client, the download engine and the
      orchestrator of [download_manager.py], with the record views of
      [gumroad_library.py].

    The Python code is embedded as functions in a small state-and-exception
    monad over an explicit [World]: the session counters, the files on disk,
    the directories made so far, the log records emitted, and the number of
    HTTP requests issued.  The network is an oracle [Remote] asked once per
    request; library calls whose code is not part of the repository
    ([mimetypes.guess_extension], [pathvalidate.sanitize_filename], the page
    parsing of BeautifulSoup and json) are section variables. *)

From Stdlib Require Import ZArith String Ascii List Bool Lia.
From stdpp Require Import base option gmap strings list.

Local Open Scope string_scope.
Local Open Scope Z_scope.

(** ** Python values the code tests for truth *)

Abbreviation bytes := (list Byte.byte).

(** [len(xs)] of a list. *)
Definition len_list {A} (xs : list A) : Z := Z.of_nat (length xs).

(** [len(b)] of a [bytes] value. *)
Definition len (b : bytes) : Z := Z.of_nat (length b).

(** [if s:] on a [str | None]. *)
Definition truthy_str (o : option string) : bool :=
  match o with
  | Some s => negb (String.eqb s EmptyString)
  | None => false
  end.

(** [if n:] on an [int | None]. *)
Definition truthy_int (o : option Z) : bool :=
  match o with
  | Some n => negb (n =? 0)
  | None => false
  end.

(** [a != b] on two [int | None] values. *)
Definition opt_int_ne (a b : option Z) : bool :=
  match a, b with
  | Some x, Some y => negb (x =? y)
  | None, None => false
  | _, _ => true
  end.

(** ** Strings and paths *)

(** [s.startswith(p)] *)
Fixpoint starts_with (p s : string) : bool :=
  match p, s with
  | EmptyString, _ => true
  | String a p', String b s' => Ascii.eqb a b && starts_with p' s'
  | String _ _, EmptyString => false
  end.

(** [sub in s] *)
Fixpoint str_in (sub s : string) : bool :=
  starts_with sub s ||
  match s with
  | EmptyString => false
  | String _ s' => str_in sub s'
  end.

(** The last character of a string, if any. *)
Fixpoint last_char (s : string) : option ascii :=
  match s with
  | EmptyString => None
  | String c EmptyString => Some c
  | String _ s' => last_char s'
  end.

Definition ends_with_sep (s : string) : bool :=
  match last_char s with
  | Some c => Ascii.eqb c "/"
  | None => false
  end.

(** [os.path.join(a, b)] with two components (posixpath): an absolute [b]
    discards [a]; a separator is inserted unless [a] is empty or already
    ends with one. *)
Definition os_path_join (a b : string) : string :=
  if starts_with "/" b then b
  else if String.eqb a EmptyString || ends_with_sep a then a +:+ b
  else a +:+ "/" +:+ b.

(** ** Log records *)

Inductive Level := DEBUG | INFO | WARNING | ERROR | CRITICAL.

(** An argument of a logging call.  [AComma n] is [format(n, ',')]. *)
Inductive Arg :=
| AStr (s : string)
| AInt (n : Z)
| AComma (n : Z)
| ABool (b : bool)
| ANone.

Definition AOptInt (o : option Z) : Arg :=
  match o with Some n => AInt n | None => ANone end.

Definition AOptStr (o : option string) : Arg :=
  match o with Some s => AStr s | None => ANone end.

(** A record keeps the format string and the arguments apart, as [logging]
    does.  Where a Python format string puts double quotes around [%s], the
    strings below have single quotes. *)
Record LogRecord := mkLog { levelno : Level; msg : string; args : list Arg }.

(** ** Exceptions *)

Inductive Exc :=
| HTTPError (status : Z)                 (* requests: raise_for_status *)
| ChunkedEncodingError                   (* requests: the body broke off *)
| SizeChanged (output_file_path : string) (existing_size download_size bytes_written : Z)
              (error_file : string)      (* the Exception of line 191 *)
| UnboundLocalError (name : string)      (* a local read before assignment *)
| TypeError (what : string)              (* format(None, ',') *)
| FileNotFoundError (path : string)
| PyException (message : string).        (* any other raise Exception(...) *)

(** ** The world *)

(** The four counters of [DownloadSession]. *)
Record Session := mkSession {
  bytes_read : Z;
  bytes_skipped : Z;
  files_downloaded : Z;
  files_skipped : Z
}.

(** [files] maps the path of each regular file to its contents; [dirs] is the
    set of directories [create_dir_with_log] has made or found.  Paths are
    compared as strings.  [clock] counts the HTTP requests issued so far. *)
Record World := mkWorld {
  session : Session;
  files : gmap string bytes;
  dirs : gset string;
  log : list LogRecord;
  clock : nat
}.

(** ** The remote side *)

(** What one GET yields: the final status after redirects, the chunks
    [iter_content] delivers, and whether the transfer then breaks off with a
    [ChunkedEncodingError]. *)
Record Response := mkResponse {
  status_code : Z;
  chunks : list bytes;
  broken : bool
}.

(** [head_of t url] is what [get_size_and_content_type] extracts from the HEAD
    response to the [t]-th request: [int(content-length)] where the header is
    there and parses, and the content type.  [get_of t auth url] is the
    response to a GET, sent with the session cookies iff [auth]. *)
Record Remote := mkRemote {
  head_of : nat -> string -> option Z * option string;
  get_of : nat -> bool -> string -> Response
}.

(** [Response.raise_for_status] raises for the 4xx and 5xx codes only. *)
Definition is_error_status (s : Z) : bool := (400 <=? s) && (s <? 600).

(** [Response.content]: the whole body. *)
Definition body (r : Response) : bytes := concat (chunks r).

(** ** The monad: state and exceptions *)

Inductive Outcome (A : Type) :=
| Returned (a : A)
| Raised (e : Exc).
Arguments Returned {A} a.
Arguments Raised {A} e.

Definition M (A : Type) : Type := World -> Outcome A * World.

Definition ret {A} (a : A) : M A := fun w => (Returned a, w).

Definition raise {A} (e : Exc) : M A := fun w => (Raised e, w).

Definition bind {A B} (c : M A) (k : A -> M B) : M B :=
  fun w =>
    match c w with
    | (Returned a, w') => k a w'
    | (Raised e, w') => (Raised e, w')
    end.

(** [try: c except E: h] for the exceptions [catches] selects. *)
Definition try_except {A} (c : M A) (catches : Exc -> bool) (h : M A) : M A :=
  fun w =>
    match c w with
    | (Raised e, w') => if catches e then h w' else (Raised e, w')
    | r => r
    end.

Declare Scope py_scope.
Delimit Scope py_scope with py.
Notation "x <- c ;; k" := (bind c (fun x => k))
  (at level 100, c at next level, right associativity) : py_scope.
Notation "c ;; k" := (bind c (fun _ => k))
  (at level 100, right associativity) : py_scope.
Local Open Scope py_scope.

Definition gets {A} (f : World -> A) : M A := fun w => (Returned (f w), w).

Definition modify (f : World -> World) : M unit := fun w => (Returned tt, f w).

Definition when (b : bool) (c : M unit) : M unit := if b then c else ret tt.

(** One call of the [logging] module. *)
Definition logging (l : Level) (m : string) (a : list Arg) : M unit :=
  modify (fun w => mkWorld (session w) (files w) (dirs w) (log w ++ [mkLog l m a])%list (clock w)).

Definition set_session (f : Session -> Session) : M unit :=
  modify (fun w => mkWorld (f (session w)) (files w) (dirs w) (log w) (clock w)).

Definition set_files (f : gmap string bytes -> gmap string bytes) : M unit :=
  modify (fun w => mkWorld (session w) (f (files w)) (dirs w) (log w) (clock w)).

(** Issue one request: read the clock and advance it. *)
Definition tick : M nat :=
  fun w => (Returned (clock w),
            mkWorld (session w) (files w) (dirs w) (log w) (S (clock w))).

(** [self.bytes_read += n] and its three siblings. *)
Definition add_bytes_read (n : Z) : M unit :=
  set_session (fun s => mkSession (bytes_read s + n) (bytes_skipped s)
                                  (files_downloaded s) (files_skipped s)).
Definition add_bytes_skipped (n : Z) : M unit :=
  set_session (fun s => mkSession (bytes_read s) (bytes_skipped s + n)
                                  (files_downloaded s) (files_skipped s)).
Definition add_files_downloaded (n : Z) : M unit :=
  set_session (fun s => mkSession (bytes_read s) (bytes_skipped s)
                                  (files_downloaded s + n) (files_skipped s)).
Definition add_files_skipped (n : Z) : M unit :=
  set_session (fun s => mkSession (bytes_read s) (bytes_skipped s)
                                  (files_downloaded s) (files_skipped s + n)).

(** ** The file system calls *)

(** [os.path.exists(p)] where the code asks about a file.  The engine is
    handed paths that name a regular file or nothing: directories are kept
    apart in [dirs], and are taken to be there where a file is opened. *)
Definition os_path_exists (p : string) : M bool :=
  gets (fun w => bool_decide (is_Some (files w !! p))).

(** [os.path.getsize(p)] *)
Definition os_path_getsize (p : string) : M Z :=
  fun w =>
    match files w !! p with
    | Some c => (Returned (len c), w)
    | None => (Raised (FileNotFoundError p), w)
    end.

(** [open(p, 'wb')]: the file is created, or cut to length zero. *)
Definition open_wb (p : string) : M unit := set_files (fun fs => <[p := []]> fs).

(** [out_file.write(data)] on a file opened by [open_wb]: appends, and returns
    the number of bytes written. *)
Definition file_write (p : string) (data : bytes) : M Z :=
  set_files (fun fs => <[p := (default [] (fs !! p) ++ data)%list]> fs) ;;
  ret (len data).

(** ** DownloadSession: the fetch client *)

Section FetchClient.
Variable net : Remote.

(** [__do_get], lines 87-94.  [auth] tells whether [session] is the
    authenticated session itself or a fresh [requests.Session()]. *)
Definition do_get (auth : bool) (url : string) (is404_ok : bool) : M Response :=
  logging DEBUG "Downloading %s" [AStr url] ;;
  t <- tick ;;
  let response := get_of net t auth url in
  if is404_ok && (status_code response =? 404) then ret response
  else if is_error_status (status_code response)
       then raise (HTTPError (status_code response))
       else ret response.

(** [get_size_and_content_type], lines 96-108. *)
Definition get_size_and_content_type (url : string) : M (option Z * option string) :=
  logging DEBUG "Getting HEAD from %s" [AStr url] ;;
  t <- tick ;;
  ret (head_of net t url).

(** [response.content]: reading the body raises when the transfer breaks. *)
Definition read_content (r : Response) : M bytes :=
  if broken r then raise ChunkedEncodingError else ret (body r).

(** [get_content_no_session], lines 110-115. *)
Definition get_content_no_session (url : string) (is404_ok : bool) : M bytes :=
  r <- do_get false url is404_ok ;;
  content <- read_content r ;;
  add_bytes_read (len content) ;;
  add_files_downloaded 1 ;;
  ret content.

(** [get_content], lines 117-121. *)
Definition get_content (url : string) (is404_ok : bool) : M bytes :=
  r <- do_get true url is404_ok ;;
  content <- read_content r ;;
  add_bytes_read (len content) ;;
  add_files_downloaded 1 ;;
  ret content.

(** The [for data in ...iter_content(...)] loop of [stream_download]. *)
Fixpoint write_chunks (output_file_path : string) (cs : list bytes)
         (total_bytes_written : Z) : M Z :=
  match cs with
  | [] => ret total_bytes_written
  | data :: cs' =>
      bytes_written <- file_write output_file_path data ;;
      add_bytes_read bytes_written ;;
      write_chunks output_file_path cs' (total_bytes_written + bytes_written)
  end.

(** [stream_download], lines 123-131.  The file is opened before the request
    is made, so it is cut to length zero even when the GET then fails. *)
Definition stream_download (url output_file_path : string) : M Z :=
  open_wb output_file_path ;;
  r <- do_get true url false ;;
  total_bytes_written <- write_chunks output_file_path (chunks r) 0 ;;
  (if broken r then raise ChunkedEncodingError else ret tt) ;;
  add_files_downloaded 1 ;;
  ret total_bytes_written.

End FetchClient.

(** ** DownloadSession.download_if_not_exists: the download engine *)

(** How the inspection of the local file (lines 167-209) ends: the function
    returns there, or control reaches line 211 with [existing_size] bound (the
    file was there) or never assigned (it was not). *)
Inductive Flow :=
| ReturnNow (downloaded : bool)
| FallThrough (existing_size : option Z).

Section Engine.
Variable net : Remote.
(** [mimetypes.guess_extension] *)
Variable guess_extension : string -> option string.

(** Lines 151-155: the size to compare with.  A truthy [size] of the caller
    replaces what the HEAD request said. *)
Definition resolve_size (size head_size : option Z) : M (option Z) :=
  if truthy_int size then
    when (opt_int_ne size head_size)
         (logging DEBUG "content-length=%s expected size=%s"
                  [AOptInt head_size; AOptInt size]) ;;
    ret size
  else ret head_size.

(** Lines 157-160: the extension. *)
Definition resolve_extension (extension content_type : option string) : option string :=
  if truthy_str extension then Some ("." +:+ default EmptyString extension)
  else if truthy_str content_type then guess_extension (default EmptyString content_type)
  else extension.

(** Lines 162-163: the file name. *)
Definition resolve_file_name (file_name : string) (extension content_type : option string)
  : string :=
  let extension := resolve_extension extension content_type in
  if truthy_str extension then file_name +:+ default EmptyString extension else file_name.

(** Lines 167-209: look at the local file and decide. *)
Definition inspect_existing (url file_name output_file_path : string)
           (download_size : option Z) (is_cover : bool) : M Flow :=
  there <- os_path_exists output_file_path ;;
  if negb there then
    logging DEBUG "File '%s' does not exist" [AStr output_file_path] ;;
    ret (FallThrough None)
  else
    existing_size <- os_path_getsize output_file_path ;;
    logging DEBUG "File '%s' exists with size %s"
            [AStr output_file_path; AComma existing_size] ;;
    if truthy_int download_size then
      let download_size := default 0 download_size in
      if existing_size =? 0 then
        logging INFO "File is empty, downloading" [] ;;
        ret (FallThrough (Some existing_size))
      else if existing_size =? download_size then
        logging INFO
          "File '%s' exists with matching size %s, assuming unchanged, skipping download"
          [AStr output_file_path; AInt download_size] ;;
        add_bytes_skipped download_size ;;
        add_files_skipped 1 ;;
        ret (ReturnNow false)
      else
        logging WARNING "Size of file '%s' has changed from %s to %s"
                [AStr output_file_path; AInt existing_size; AInt download_size] ;;
        if negb is_cover then
          let error_file := "error-" +:+ file_name in
          bytes_written <- stream_download net url error_file ;;
          raise (SizeChanged output_file_path existing_size download_size
                             bytes_written error_file)
        else if download_size >=? existing_size then
          logging WARNING "The existing file is smaller, so keeping it" [] ;;
          add_bytes_skipped download_size ;;
          add_files_skipped 1 ;;
          ret (ReturnNow false)
        else
          logging WARNING "New file is smaller, so downloading it" [] ;;
          ret (FallThrough (Some existing_size))
    else
      logging CRITICAL
        "Unknown download size of url %s, overwriting existing file '%s' with size %s"
        [AStr url; AStr output_file_path; AComma existing_size] ;;
      ret (FallThrough (Some existing_size)).

Definition is_chunked_encoding_error (e : Exc) : bool :=
  match e with ChunkedEncodingError => true | _ => false end.

(** Lines 213-223: the [while True] loop runs once, or twice when [retry]
    is set and the first transfer breaks; the second failure is raised. *)
Definition download_with_retry (url output_file_path : string) (retry : bool) : M Z :=
  try_except (stream_download net url output_file_path)
             (fun e => is_chunked_encoding_error e && retry)
             (logging WARNING
                "Error during download, but it's a thumbnail/cover, so will try once more" [] ;;
              stream_download net url output_file_path).

(** Lines 211-231: save the download.  [format(None, ',')] raises, and so
    does reading [existing_size] when no branch assigned it. *)
Definition save_download (url output_file_path : string) (download_size existing_size : option Z)
           (is_cover : bool) : M bool :=
  shown_size <- match download_size with
                | Some n => ret (AComma n)
                | None => raise (TypeError "unsupported format string passed to NoneType.__format__")
                end ;;
  logging INFO "Saving download to '%s' with size %s" [AStr output_file_path; shown_size] ;;
  bytes_written <- download_with_retry url output_file_path is_cover ;;
  logging DEBUG "Downloaded %d bytes to file '%s'" [AInt bytes_written; AStr output_file_path] ;;
  (if truthy_int download_size && negb (bytes_written =? default 0 download_size) then
     match existing_size with
     | Some existing_size =>
         logging CRITICAL "Size of file '%s' has changed from %s to %s"
                 [AStr output_file_path; AInt existing_size; AInt bytes_written]
     | None => raise (UnboundLocalError "existing_size")
     end
   else ret tt) ;;
  ret true.

(** [download_if_not_exists], lines 133-231. *)
Definition download_if_not_exists (url output_path file_name : string)
           (extension : option string) (size : option Z) (is_cover : bool) : M bool :=
  head <- get_size_and_content_type net url ;;
  download_size <- resolve_size size (fst head) ;;
  let file_name := resolve_file_name file_name extension (snd head) in
  let output_file_path := os_path_join output_path file_name in
  flow <- inspect_existing url file_name output_file_path download_size is_cover ;;
  match flow with
  | ReturnNow downloaded => ret downloaded
  | FallThrough existing_size =>
      save_download url output_file_path download_size existing_size is_cover
  end.

End Engine.

(** ** gumroad_library.py: views over the records of the pages *)

Definition DOWNLOAD_URL_PREFIX : string := "https://app.gumroad.com".

(** The keys of a cover record that the code reads. *)
Record ProductCover := mkCover {
  cover_id : string;
  cover_original_url : option string;
  cover_type : string;
  cover_filetype : option string
}.

(** [ProductCover.get_url] *)
Definition cover_get_url (c : ProductCover) : option string := cover_original_url c.

(** [ProductCover.is_external], lines 58-67. *)
Definition cover_is_external (c : ProductCover) : bool :=
  let url := cover_get_url c in
  if truthy_str url && str_in "gumroad.com" (default EmptyString url) then false else true.

(** [ProductCover.get_file_name_and_extension] *)
Definition cover_get_file_name_and_extension (c : ProductCover) : string * option string :=
  (cover_id c, cover_filetype c).

Record Creator := mkCreator { creator_name : string; profile_url : string }.

(** The keys of a library result that the code reads. *)
Record LibraryProduct := mkLibraryProduct {
  product_name : string;
  thumbnail_url : option string;
  creator : option Creator;
  creator_id : string;
  covers : option (list ProductCover);
  purchase_download_url : string
}.

(** The keys of a content item that the code reads. *)
Record ContentItem := mkContentItem {
  ci_id : string;
  ci_type : string;
  ci_external_link_url : option string;
  ci_download_url : option string;
  ci_file_size : option Z;
  ci_file_name : string;
  ci_extension : option string
}.

(** [ContentItem.is_file] *)
Definition ci_is_file (c : ContentItem) : bool := String.eqb (ci_type c) "file".

(** [ContentItem.is_external], lines 209-214: looks at the url of the record. *)
Definition ci_is_external (c : ContentItem) : bool :=
  let url := ci_download_url c in
  if truthy_str url && str_in "gumroad.com" (default EmptyString url) then false else true.

(** [ContentItem.get_full_download_url], lines 216-221. *)
Definition get_full_download_url (c : ContentItem) : option string :=
  let dl_url := ci_download_url c in
  if truthy_str dl_url then Some (DOWNLOAD_URL_PREFIX +:+ default EmptyString dl_url)
  else None.

(** What [Library.__init__] keeps of the library page. *)
Record LibraryData := mkLibraryData {
  lib_json_text : string;
  lib_formatted_json : string;
  lib_results : list LibraryProduct
}.

(** What [GumroadProduct.__init__] keeps of a product page. *)
Record ProductData := mkProductData {
  prod_json_raw_text : string;
  prod_formatted_json : string;
  purchase_product_name : string;
  purchase_product_long_url : string;
  content_items_data : list ContentItem
}.

Section Library.
(** [pathvalidate.sanitize_filename] *)
Variable sanitize_filename : string -> string.
(** [heavily_sanitize_filename], lines 241-247: Unicode normalisation,
    regular expressions and [sanitize_filename]. *)
Variable heavily_sanitize_filename : string -> string.
(** Group 1 of [re.search(r'://([^\.]+).', url)], if it matches. *)
Variable search_subdomain : string -> option string.

(** [LibraryProduct.get_creator_name], lines 110-118. *)
Definition get_creator_name (p : LibraryProduct) : M string :=
  match creator p with
  | Some c => ret (creator_name c)
  | None =>
      logging WARNING "The creator with ID %s for product '%s' has no name "
              [AStr (creator_id p); AStr (product_name p)] ;;
      ret ("[id " +:+ creator_id p +:+ "]")
  end.

(** [LibraryProduct.get_creator_dir_name], lines 120-141. *)
Definition get_creator_dir_name (p : LibraryProduct) : M string :=
  creator_dir_name <-
    match creator p with
    | Some c =>
        match search_subdomain (profile_url c) with
        | Some g => ret (Some g)
        | None =>
            logging WARNING "Was unable to find the creator sub-domain in URL %s"
                    [AStr (profile_url c)] ;;
            ret None
        end
    | None => ret None
    end ;;
  creator_dir_name <-
    (if negb (truthy_str creator_dir_name) then get_creator_name p
     else ret (default EmptyString creator_dir_name)) ;;
  ret (heavily_sanitize_filename creator_dir_name).

(** [LibraryProduct.get_creator_product_path], lines 91-92. *)
Definition get_creator_product_path (p : LibraryProduct) : M string :=
  d <- get_creator_dir_name p ;;
  ret (os_path_join d (heavily_sanitize_filename (product_name p))).

(** [ContentItem.get_file_name_and_extension], lines 232-238. *)
Definition ci_get_file_name_and_extension (c : ContentItem) : string * option string :=
  (sanitize_filename (ci_file_name c), ci_extension c).

(** [ContentItem.__init__], lines 191-197. *)
Definition ContentItem_init (c : ContentItem) : M ContentItem :=
  when (truthy_str (ci_external_link_url c))
       (logging WARNING "Download '%s' has an external link %s"
                [AStr (ci_file_name c); AOptStr (ci_external_link_url c)]) ;;
  when (negb (ci_is_file c))
       (logging CRITICAL "Download '%s' is not a file: %s"
                [AStr (ci_file_name c); AStr (ci_type c)]) ;;
  ret c.

(** [GumroadProduct.get_content_items], lines 272-282. *)
Fixpoint get_content_items (data : list ContentItem) : M (list ContentItem) :=
  match data with
  | [] => ret []
  | content_item_data :: rest =>
      ci <- ContentItem_init content_item_data ;;
      if ci_is_file ci then
        items <- get_content_items rest ;;
        ret (ci :: items)
      else
        logging INFO "Skipping non-file content" [] ;;
        get_content_items rest
  end.

End Library.

(** ** download_manager.py: files, directories and the orchestrator *)

Definition LIBRARY_URL : string := "https://app.gumroad.com/library".
Definition GIT_IGNORE_FILE : string := "for-output_dir.gitignore".
Definition PRODUCT_RAW_JSON : string := "product-raw.json".
Definition PRODUCT_JSON : string := "product.json".
Definition PRODUCT_PAGE_HTML : string := "product-page.html".
Definition PRODUCT_PAGE_URL : string := "product-page.url".
Definition LIBRARY_HTML : string := "library.html".
Definition LIBRARY_JSON : string := "library.json".
Definition LIBRARY_RAW_JSON : string := "library-raw.json".

(** A text written with [open(p, 'w')]: its bytes. *)
Definition encode (s : string) : bytes := list_byte_of_string s.

(** [create_dir_with_log], lines 59-65. *)
Definition create_dir_with_log (dir_path : string) : M unit :=
  there <- gets (fun w => bool_decide (dir_path ∈ dirs w)) ;;
  if there then logging DEBUG "Directory already exists '%s'" [AStr dir_path]
  else
    logging DEBUG "Creating directory '%s'" [AStr dir_path] ;;
    modify (fun w => mkWorld (session w) (files w) ({[dir_path]} ∪ dirs w) (log w) (clock w)).

(** [write_file_with_log], lines 67-71. *)
Definition write_file_with_log (file_path : string) (contents : bytes) : M unit :=
  there <- os_path_exists file_path ;;
  logging DEBUG "Writing file '%s' exists=%s" [AStr file_path; ABool there] ;;
  set_files (fun fs => <[file_path := contents]> fs).

(** [copy_git_ignore], lines 355-362. *)
Definition copy_git_ignore (directory : string) : M unit :=
  let git_ignore_path := os_path_join directory ".gitignore" in
  logging INFO "Copying %s to %s" [AStr GIT_IGNORE_FILE; AStr git_ignore_path] ;;
  template <- gets (fun w => files w !! GIT_IGNORE_FILE) ;;
  match template with
  | Some c => set_files (fun fs => <[git_ignore_path := c]> fs)
  | None => raise (FileNotFoundError GIT_IGNORE_FILE)
  end.

(** [compare_product_names], lines 364-368. *)
Definition compare_product_names (name_from_library name_from_product : string) : M unit :=
  when (negb (String.eqb name_from_library name_from_product))
       (logging WARNING
          "Product name on Library page '%s' is different from the product name on the product page '%s'"
          [AStr name_from_library; AStr name_from_product]).

(** [for idx, x in enumerate(xs)], counting from [idx]. *)
Fixpoint for_enumerate {A} (xs : list A) (idx : Z) (loop_body : Z -> A -> M unit) : M unit :=
  match xs with
  | [] => ret tt
  | x :: xs' => loop_body idx x ;; for_enumerate xs' (idx + 1) loop_body
  end.

Section Orchestrator.
Variable net : Remote.
Variable guess_extension : string -> option string.
Variable sanitize_filename : string -> string.
Variable heavily_sanitize_filename : string -> string.
Variable search_subdomain : string -> option string.
(** [Library.__init__], lines 157-170: BeautifulSoup and [json.loads] give
    the records of the page, or the constructor raises. *)
Variable parse_library_page : bytes -> Exc + LibraryData.
(** [GumroadProduct.__init__] on the contents of a page, lines 259-270. *)
Variable parse_product_page : bytes -> Exc + ProductData.

Local Abbreviation engine := (download_if_not_exists net guess_extension).

(** [LibraryDownloader.__init__], lines 239-258. *)
Definition LibraryDownloader_init (output_root_dir : string) : M LibraryData :=
  create_dir_with_log output_root_dir ;;
  library_page_html <- get_content net LIBRARY_URL false ;;
  write_file_with_log (os_path_join output_root_dir LIBRARY_HTML) library_page_html ;;
  library <- match parse_library_page library_page_html with
             | inl e => raise e
             | inr d => ret d
             end ;;
  write_file_with_log (os_path_join output_root_dir LIBRARY_RAW_JSON)
                      (encode (lib_json_text library)) ;;
  write_file_with_log (os_path_join output_root_dir LIBRARY_JSON)
                      (encode (lib_formatted_json library)) ;;
  ret library.

(** [__download_thumbnail], lines 283-287. *)
Definition download_thumbnail (product_dir_path : string) (p : LibraryProduct) : M unit :=
  if truthy_str (thumbnail_url p) then
    engine (default EmptyString (thumbnail_url p)) product_dir_path "thumbnail" None None true ;;
    ret tt
  else ret tt.

(** The [for cover in covers] loop, lines 304-314. *)
Fixpoint download_cover_loop (product_dir_path : string) (cs : list ProductCover)
         (download_count : Z) : M Z :=
  match cs with
  | [] => ret download_count
  | cover :: cs' =>
      if cover_is_external cover then
        logging INFO "Skipping external cover url %s" [AOptStr (cover_get_url cover)] ;;
        download_cover_loop product_dir_path cs' download_count
      else
        let fn_ext := cover_get_file_name_and_extension cover in
        downloaded <- engine (default EmptyString (cover_get_url cover)) product_dir_path
                             (fst fn_ext) (snd fn_ext) None true ;;
        download_cover_loop product_dir_path cs'
                            (if downloaded then download_count + 1 else download_count)
  end.

(** [__download_covers], lines 289-315. *)
Definition download_covers (product_dir_path : string) (p : LibraryProduct) : M unit :=
  match covers p with
  | None => logging WARNING "No covers block for product '%s'" [AStr (product_name p)]
  | Some cs =>
      logging INFO "Found %s covers for product '%s'" [AInt (len_list cs); AStr (product_name p)] ;;
      download_count <- download_cover_loop product_dir_path cs 0 ;;
      logging INFO "Downloaded %s covers for product '%s'"
              [AInt download_count; AStr (product_name p)]
  end.

(** [LibraryProductDownloader.__init__] and [download], lines 265-281;
    returns [product_dir_path]. *)
Definition LibraryProductDownloader_init (output_root_dir : string) (p : LibraryProduct)
  : M string :=
  path <- get_creator_product_path heavily_sanitize_filename search_subdomain p ;;
  let product_dir_path := os_path_join output_root_dir path in
  cname <- get_creator_name p ;;
  logging DEBUG "Initializing product '%s' by '%s'" [AStr (product_name p); AStr cname] ;;
  create_dir_with_log product_dir_path ;;
  download_thumbnail product_dir_path p ;;
  download_covers product_dir_path p ;;
  ret product_dir_path.

(** [GumroadProduct(product_download_page_contents=...)], lines 253-270. *)
Definition GumroadProduct_init (product_download_page_contents : bytes) : M ProductData :=
  match product_download_page_contents with
  | [] => raise (PyException "Both args are null")
  | _ => match parse_product_page product_download_page_contents with
         | inl e => raise e
         | inr d => ret d
         end
  end.

(** [GumroadProductDownloader.__init__], lines 319-348. *)
Definition GumroadProductDownloader_init (product_dir product_page_url : string)
  : M ProductData :=
  product_download_page_html <- get_content net product_page_url false ;;
  gumroad_product <- GumroadProduct_init product_download_page_html ;;
  write_file_with_log (os_path_join product_dir PRODUCT_RAW_JSON)
                      (encode (prod_json_raw_text gumroad_product)) ;;
  write_file_with_log (os_path_join product_dir PRODUCT_JSON)
                      (encode (prod_formatted_json gumroad_product)) ;;
  let store_page_url := purchase_product_long_url gumroad_product in
  write_file_with_log (os_path_join product_dir PRODUCT_PAGE_URL)
                      (encode ("[InternetShortcut]" +:+ String "010" "URL=" +:+ store_page_url)) ;;
  let store_page_html_path := os_path_join product_dir PRODUCT_PAGE_HTML in
  logging DEBUG "Downloading product store page %s to %s"
          [AStr store_page_url; AStr store_page_html_path] ;;
  store_page_html <- get_content_no_session net store_page_url true ;;
  write_file_with_log store_page_html_path store_page_html ;;
  ret gumroad_product.

(** The body of the [for cnt_itm_idx, content_item] loop, lines 425-458. *)
Definition download_content_item (product_dir_path : string) (library_product : LibraryProduct)
           (lib_prod_idx product_count content_item_count : Z)
           (cnt_itm_idx : Z) (content_item : ContentItem) : M unit :=
  let download_url := get_full_download_url content_item in
  let external_url := ci_external_link_url content_item in
  let file_name := ci_file_name content_item in
  if truthy_str download_url then
    when (truthy_str external_url)
         (logging WARNING "File '%s' also has an external URL you should check %s"
                  [AStr file_name; AOptStr external_url]) ;;
    if negb (str_in "gumroad.com" (default EmptyString download_url)) then
      logging WARNING "File '%s' appears to have an external url you will need to check %s"
              [AStr file_name; AOptStr download_url]
    else
      let content_item_dir := os_path_join product_dir_path (ci_id content_item) in
      create_dir_with_log content_item_dir ;;
      cname <- get_creator_name library_product ;;
      logging INFO "[%s/%s] (%s/%s) Downloading file '%s' for '%s' by '%s'"
              [AInt (lib_prod_idx + 1); AInt product_count;
               AInt (cnt_itm_idx + 1); AInt content_item_count;
               AStr (sanitize_filename (ci_file_name content_item));
               AStr (product_name library_product); AStr cname] ;;
      let fn_ext := ci_get_file_name_and_extension sanitize_filename content_item in
      engine (default EmptyString download_url) content_item_dir
             (fst fn_ext) (snd fn_ext) (ci_file_size content_item) false ;;
      ret tt
  else
    if truthy_str external_url then
      logging WARNING "File '%s' has an external url you will need to download manually %s"
              [AStr file_name; AOptStr external_url]
    else
      logging WARNING "File '%s' has no download url, skipping" [AStr file_name].

(** The body of the [for lib_prod_idx, library_product] loop, lines 404-458. *)
Definition download_product (output_root_dir : string) (product_count : Z)
           (lib_prod_idx : Z) (library_product : LibraryProduct) : M unit :=
  cname <- get_creator_name library_product ;;
  logging INFO "[%s/%s] Downloading '%s' by '%s'"
          [AInt (lib_prod_idx + 1); AInt product_count;
           AStr (product_name library_product); AStr cname] ;;
  product_dir_path <- LibraryProductDownloader_init output_root_dir library_product ;;
  gumroad_product <- GumroadProductDownloader_init
                       product_dir_path (purchase_download_url library_product) ;;
  compare_product_names (product_name library_product)
                        (purchase_product_name gumroad_product) ;;
  content_items <- get_content_items (content_items_data gumroad_product) ;;
  let content_item_count := len_list content_items in
  cname <- get_creator_name library_product ;;
  logging INFO "Downloading %s files for product '%s' by '%s'"
          [AInt content_item_count; AStr (product_name library_product); AStr cname] ;;
  for_enumerate content_items 0
    (download_content_item product_dir_path library_product
                           lib_prod_idx product_count content_item_count).

(** A new [DownloadSession]: the four counters start at zero. *)
Definition new_session : M unit := set_session (fun _ => mkSession 0 0 0 0).

(** [DownloadManager.download], lines 391-458. *)
Definition download (output_root_dir : string) : M unit :=
  new_session ;;
  create_dir_with_log output_root_dir ;;
  copy_git_ignore output_root_dir ;;
  library <- LibraryDownloader_init output_root_dir ;;
  let library_products := lib_results library in
  let product_count := len_list library_products in
  logging INFO "Found %s products" [AInt product_count] ;;
  for_enumerate library_products 0 (download_product output_root_dir product_count).

End Orchestrator.

(** ** Values the statements below speak of *)

(** The size [download_if_not_exists] compares with: what [resolve_size]
    returns. *)
Definition download_size_of (size head_size : option Z) : option Z :=
  if truthy_int size then size else head_size.

(** A GET that [stream_download] completes: no 4xx or 5xx status, and the
    body arrives whole. *)
Definition completes (r : Response) : Prop :=
  is_error_status (status_code r) = false /\ broken r = false.

(** A log holds a record of level [l] with format string [m]. *)
Definition logged (l : Level) (m : string) (lg : list LogRecord) : Prop :=
  exists a, In (mkLog l m a) lg.

(** ** Worlds and remotes to run the code on *)

Definition zeros (n : nat) : bytes := repeat Byte.x00 n.

Definition fresh_session : Session := mkSession 0 0 0 0.

(** A world that holds the files [fs] and nothing else. *)
Definition world_of (fs : gmap string bytes) : World := mkWorld fresh_session fs ∅ [] 0%nat.

(** A remote that does not change: every HEAD reports [head_size] and
    [content_type], every GET has status [status] and a body of [n] bytes. *)
Definition steady_remote (head_size : option Z) (content_type : option string)
           (status : Z) (n : nat) : Remote :=
  mkRemote (fun _ _ => (head_size, content_type))
           (fun _ _ _ => mkResponse status [zeros n] false).

(** A few rows of the table of [mimetypes], as CPython has them.  The last
    one is the row the older script filters out ([gumroad_download.py], line
    256: [file_extension == '.bin']); the engine has no such filter. *)
Definition guess_few (content_type : string) : option string :=
  if String.eqb content_type "image/png" then Some ".png"
  else if String.eqb content_type "image/jpeg" then Some ".jpg"
  else if String.eqb content_type "application/zip" then Some ".zip"
  else if String.eqb content_type "application/octet-stream" then Some ".bin"
  else None.

(** ** Worlds the code leaves behind *)

(** [w] with the records [rs] logged. *)
Definition add_log (rs : list LogRecord) (w : World) : World :=
  mkWorld (session w) (files w) (dirs w) (log w ++ rs)%list (clock w).

(** [w] after the HEAD request of [get_size_and_content_type]. *)
Definition head_asked (url : string) (w : World) : World :=
  mkWorld (session w) (files w) (dirs w)
          (log w ++ [mkLog DEBUG "Getting HEAD from %s" [AStr url]])%list (S (clock w)).

(** [w] after a skip: [bytes_skipped += d] and [files_skipped += 1]. *)
Definition count_skip (d : Z) (w : World) : World :=
  mkWorld (mkSession (bytes_read (session w)) (bytes_skipped (session w) + d)
                     (files_downloaded (session w)) (files_skipped (session w) + 1))
          (files w) (dirs w) (log w) (clock w).

(** [w] after [stream_download url p] received the response [r] whole. *)
Definition streamed (url p : string) (r : Response) (w : World) : World :=
  mkWorld (mkSession (bytes_read (session w) + len (body r)) (bytes_skipped (session w))
                     (files_downloaded (session w) + 1) (files_skipped (session w)))
          (<[p := body r]> (files w)) (dirs w)
          (log w ++ [mkLog DEBUG "Downloading %s" [AStr url]])%list (S (clock w)).

(** The library of the end-to-end scenario: one product with an external and
    an internal cover, whose page lists a file and an item that is only an
    external link. *)
Definition cover_external : ProductCover :=
  mkCover "cov-video" (Some "https://www.youtube.com/watch?v=x1") "oembed" None.

Definition cover_internal : ProductCover :=
  mkCover "cov-image" (Some "https://public-files.gumroad.com/cov-image") "image" (Some "png").

Definition item_file : ContentItem :=
  mkContentItem "item-1" "file" None (Some "/r/item-1") (Some 4) "brushes" (Some "zip").

Definition item_link_only : ContentItem :=
  mkContentItem "item-2" "file" (Some "https://example.org/tutorial") None None "tutorial" None.

(** An item whose url makes the prefixed url name a host outside the platform. *)
Definition item_foreign : ContentItem :=
  mkContentItem "item-9" "file" None (Some ".evil.example/f.zip") (Some 4) "f" (Some "zip").

Definition product_of (thumbnail : option string) : LibraryProduct :=
  mkLibraryProduct "Brush Pack" thumbnail
                   (Some (mkCreator "Ada" "https://ada.gumroad.com")) "c-1"
                   (Some [cover_external; cover_internal])
                   "https://app.gumroad.com/d/brush-pack".

Definition library_of (thumbnail : option string) : LibraryData :=
  mkLibraryData "{}" "{}" [product_of thumbnail].

Definition product_page : ProductData :=
  mkProductData "{}" "{}" "Brush Pack" "https://ada.gumroad.com/l/brush-pack"
                [item_file; item_link_only].

(** The remote of the scenario: images of 3 bytes, and 4 bytes for
    everything else, pages included. *)
Definition scenario_remote : Remote :=
  mkRemote
    (fun _ url => if str_in "public-files" url then (Some 3, Some "image/png")
                  else (Some 4, Some "application/zip"))
    (fun _ _ url => mkResponse 200 [zeros (if str_in "public-files" url then 3 else 4)] false).

Definition keep_name (s : string) : string := s.

Definition subdomain_of_ada (url : string) : option string :=
  if String.eqb url "https://ada.gumroad.com" then Some "ada" else None.

(** One run of the orchestrator over the scenario, into [out]. *)
Definition scenario_run (thumbnail : option string) : Outcome unit * World :=
  download scenario_remote guess_few keep_name keep_name subdomain_of_ada
           (fun _ => inr (library_of thumbnail)) (fun _ => inr product_page)
           "out" (world_of {[GIT_IGNORE_FILE := zeros 1]}).

(** The urls of the GET requests a log records, oldest first. *)
Definition urls_fetched (lg : list LogRecord) : list (list Arg) :=
  map args (filter (fun r => bool_decide (msg r = "Downloading %s")) lg).

(** ** Orders on the counters *)

(** No counter of [s'] is below its value in [s]. *)
Definition session_le (s s' : Session) : Prop :=
  bytes_read s <= bytes_read s' /\
  bytes_skipped s <= bytes_skipped s' /\
  files_downloaded s <= files_downloaded s' /\
  files_skipped s <= files_skipped s'.

(** Everything [w'] may differ in from [w] after part of a call that writes
    to [p] or [e] only and issues at most [n] requests. *)
Definition effects (p e : string) (n : nat) (w w' : World) : Prop :=
  session_le (session w) (session w') /\
  (clock w <= clock w' <= clock w + n)%nat /\
  dirs w' = dirs w /\
  (forall q, q <> p -> q <> e -> files w' !! q = files w !! q).

(** What a call of the engine that resolves the path [p], the error file [e]
    and the size [d] leaves behind: [w] before, [res] its outcome. *)
Definition engine_post (p e : string) (d : option Z) (cover : bool)
           (w : World) (res : Outcome bool * World) : Prop :=
  effects p e (if cover then 3 else 2) w (snd res) /\
  (clock w < clock (snd res))%nat /\
  (fst res = Returned true ->
   files_downloaded (session (snd res)) = files_downloaded (session w) + 1 /\
   files_skipped (session (snd res)) = files_skipped (session w) /\
   bytes_skipped (session (snd res)) = bytes_skipped (session w)) /\
  (fst res = Returned false ->
   files_skipped (session (snd res)) = files_skipped (session w) + 1 /\
   bytes_skipped (session (snd res)) = bytes_skipped (session w) + default 0 d /\
   files_downloaded (session (snd res)) = files_downloaded (session w) /\
   bytes_read (session (snd res)) = bytes_read (session w) /\
   files (snd res) = files w /\
   clock (snd res) = S (clock w)).

(** ** The sub-domain of a profile url *)

(** [re.search(r'://([^\.]+).', url)] of [get_creator_dir_name], line 131,
    read character by character (the urls of the platform are ASCII).  The
    group takes as many characters other than a dot as it can; the [.] after
    it takes any character but a newline, the dot included; where the text
    ends with the group, the group gives characters back from its end until
    one of them can be taken by the [.]. *)

Definition is_dot (c : ascii) : bool := Ascii.eqb c ".".

Definition is_newline (c : ascii) : bool := Ascii.eqb c "010".

(** The characters up to the first dot, and the rest. *)
Fixpoint span_no_dot (s : string) : string * string :=
  match s with
  | EmptyString => (EmptyString, EmptyString)
  | String c s' =>
      if is_dot c then (EmptyString, s)
      else (String c (fst (span_no_dot s')), snd (span_no_dot s'))
  end.

(** The longest proper prefix of [s] after which [s] goes on with a
    character that is not a newline. *)
Fixpoint give_back (s : string) : option string :=
  match s with
  | EmptyString => None
  | String c s' =>
      match give_back s' with
      | Some t => Some (String c t)
      | None => if is_newline c then None else Some EmptyString
      end
  end.

(** Group 1 of a match of [([^\.]+).] at the start of [s]. *)
Definition match_group (s : string) : option string :=
  match fst (span_no_dot s), snd (span_no_dot s) with
  | EmptyString, _ => None
  | String c run, String _ _ => Some (String c run)
  | String c run, EmptyString =>
      match give_back run with
      | Some t => Some (String c t)
      | None => None
      end
  end.

(** [s] without the prefix [p], if it starts with it. *)
Fixpoint strip_prefix (p s : string) : option string :=
  match p, s with
  | EmptyString, _ => Some s
  | String a p', String b s' => if Ascii.eqb a b then strip_prefix p' s' else None
  | String _ _, EmptyString => None
  end.

(** Group 1 of the leftmost match in [s], if there is a match. *)
Fixpoint search_profile_subdomain (s : string) : option string :=
  match s with
  | EmptyString => None
  | String _ s' =>
      match strip_prefix "://" s with
      | Some r =>
          match match_group r with
          | Some g => Some g
          | None => search_profile_subdomain s'
          end
      | None => search_profile_subdomain s'
      end
  end.

(** No character of [s] is a dot. *)
Fixpoint no_dot (s : string) : bool :=
  match s with
  | EmptyString => true
  | String c s' => negb (is_dot c) && no_dot s'
  end.

(** * Properties *)

(** Unfold the operations of the monad and compute. *)
Ltac run :=
  unfold bind, ret, raise, gets, modify, when, logging, set_session, set_files, tick,
    add_bytes_read, add_bytes_skipped, add_files_downloaded, add_files_skipped,
    os_path_exists, os_path_getsize, file_write in *;
  cbn.

(** Find a record among those appended to a log. *)
Ltac find_logged :=
  repeat first [ apply in_or_app; right; left; reflexivity | apply in_or_app; left ].

(** Find a record in a log that computes. *)
Ltac in_log := vm_compute; repeat first [ left; reflexivity | right ].

Lemma len_app (a b : bytes) : len (a ++ b)%list = len a + len b.
Proof. unfold len. rewrite length_app. lia. Qed.

Lemma bind_returned {A B} (c : M A) (k : A -> M B) w a w' :
  c w = (Returned a, w') -> bind c k w = k a w'.
Proof. intros H. unfold bind. by rewrite H. Qed.

Lemma bind_raised {A B} (c : M A) (k : A -> M B) w e w' :
  c w = (Raised e, w') -> bind c k w = (Raised e, w').
Proof. intros H. unfold bind. by rewrite H. Qed.

(** *** The fetch client *)

Lemma write_chunks_eq p cs t br bs fd fsk fs ds lg ck c :
  fs !! p = Some c ->
  write_chunks p cs t (mkWorld (mkSession br bs fd fsk) fs ds lg ck) =
  (Returned (t + len (concat cs)),
   mkWorld (mkSession (br + len (concat cs)) bs fd fsk)
           (<[p := (c ++ concat cs)%list]> fs) ds lg ck).
Proof.
  revert t br fs c. induction cs as [|d cs IH]; intros t br fs c Hc.
  - simpl. rewrite app_nil_r, insert_id by done.
    unfold ret, len. simpl. by rewrite !Z.add_0_r.
  - cbn [write_chunks]. run. rewrite Hc. cbn.
    erewrite IH by apply lookup_insert_eq.
    rewrite insert_insert_eq, len_app, <- app_assoc.
    by rewrite !Z.add_assoc.
Qed.

Lemma stream_download_eq net url p w :
  stream_download net url p w =
  let r := get_of net (clock w) true url in
  let lg := (log w ++ [mkLog DEBUG "Downloading %s" [AStr url]])%list in
  let s := session w in
  if is_error_status (status_code r) then
    (Raised (HTTPError (status_code r)),
     mkWorld s (<[p := []]> (files w)) (dirs w) lg (S (clock w)))
  else if broken r then
    (Raised ChunkedEncodingError,
     mkWorld (mkSession (bytes_read s + len (body r)) (bytes_skipped s)
                        (files_downloaded s) (files_skipped s))
             (<[p := body r]> (files w)) (dirs w) lg (S (clock w)))
  else (Returned (len (body r)), streamed url p r w).
Proof.
  destruct w as [[br bs fd fsk] fs ds lg ck].
  unfold stream_download, open_wb, do_get, streamed. run.
  destruct (is_error_status _) eqn:E; run; [done|].
  erewrite write_chunks_eq by apply lookup_insert_eq.
  rewrite insert_insert_eq. run.
  destruct (broken _); run; done.
Qed.

Lemma stream_download_completes net url p w :
  completes (get_of net (clock w) true url) ->
  stream_download net url p w =
  (Returned (len (body (get_of net (clock w) true url))),
   streamed url p (get_of net (clock w) true url) w).
Proof. intros [H1 H2]. rewrite stream_download_eq. cbn zeta. by rewrite H1, H2. Qed.

(** Whatever the GET brings, [stream_download] touches no file but its own. *)
Lemma stream_download_frame net url p w q :
  q <> p -> files (snd (stream_download net url p w)) !! q = files w !! q.
Proof.
  intros Hq. rewrite stream_download_eq. cbn zeta.
  destruct (is_error_status _); [|destruct (broken _)]; cbn;
    by rewrite lookup_insert_ne.
Qed.

#[local] Arguments stream_download : simpl never.

Lemma get_size_and_content_type_eq net url w :
  get_size_and_content_type net url w = (Returned (head_of net (clock w) url), head_asked url w).
Proof. reflexivity. Qed.

(** *** The engine, branch by branch *)

Lemma resolve_size_eq size head_size w :
  exists rs, resolve_size size head_size w =
             (Returned (download_size_of size head_size), add_log rs w).
Proof.
  destruct w as [s fs ds lg ck].
  unfold resolve_size, download_size_of, add_log.
  destruct (truthy_int size); run.
  - destruct (opt_int_ne size head_size); run; [by eexists|].
    exists []. by rewrite app_nil_r.
  - exists []. by rewrite app_nil_r.
Qed.

Lemma inspect_absent net url name p d cover w :
  files w !! p = None ->
  inspect_existing net url name p d cover w =
  (Returned (FallThrough None),
   add_log [mkLog DEBUG "File '%s' does not exist" [AStr p]] w).
Proof.
  intros H. destruct w as [s fs ds lg ck]. cbn in H.
  unfold inspect_existing. run. rewrite H. done.
Qed.

Lemma inspect_present net url name p ds cover w c :
  files w !! p = Some c ->
  inspect_existing net url name p ds cover w =
  let w1 := add_log [mkLog DEBUG "File '%s' exists with size %s" [AStr p; AComma (len c)]] w in
  if truthy_int ds then
    let d := default 0 ds in
    if len c =? 0 then
      (Returned (FallThrough (Some (len c))),
       add_log [mkLog INFO "File is empty, downloading" []] w1)
    else if len c =? d then
      (Returned (ReturnNow false),
       count_skip d (add_log [mkLog INFO
         "File '%s' exists with matching size %s, assuming unchanged, skipping download"
         [AStr p; AInt d]] w1))
    else
      let w2 := add_log [mkLog WARNING "Size of file '%s' has changed from %s to %s"
                               [AStr p; AInt (len c); AInt d]] w1 in
      if negb cover then
        bind (stream_download net url ("error-" +:+ name))
             (fun bytes_written =>
                raise (SizeChanged p (len c) d bytes_written ("error-" +:+ name))) w2
      else if d >=? len c then
        (Returned (ReturnNow false),
         count_skip d (add_log [mkLog WARNING "The existing file is smaller, so keeping it" []] w2))
      else
        (Returned (FallThrough (Some (len c))),
         add_log [mkLog WARNING "New file is smaller, so downloading it" []] w2)
  else
    (Returned (FallThrough (Some (len c))),
     add_log [mkLog CRITICAL
       "Unknown download size of url %s, overwriting existing file '%s' with size %s"
       [AStr url; AStr p; AComma (len c)]] w1).
Proof.
  intros H. destruct w as [[br bs fd fsk] fs ds' lg ck]. cbn in H.
  unfold inspect_existing, add_log, count_skip. run. repeat (rewrite H; cbn).
  destruct (truthy_int ds); cbn; [|done].
  destruct (len c =? 0); cbn; [done|].
  destruct (len c =? default 0 ds); cbn; [done|].
  destruct cover; cbn; [|done].
  destruct (default 0 ds >=? len c); cbn; done.
Qed.

Lemma download_with_retry_completes net url p retry w :
  completes (get_of net (clock w) true url) ->
  download_with_retry net url p retry w =
  (Returned (len (body (get_of net (clock w) true url))),
   streamed url p (get_of net (clock w) true url) w).
Proof.
  intros H. unfold download_with_retry, try_except.
  by rewrite stream_download_completes.
Qed.

#[local] Arguments download_with_retry : simpl never.

Lemma save_download_completes net url p d existing cover w :
  let w0 := add_log [mkLog INFO "Saving download to '%s' with size %s" [AStr p; AComma d]] w in
  let r := get_of net (clock w) true url in
  let w1 := add_log [mkLog DEBUG "Downloaded %d bytes to file '%s'" [AInt (len (body r)); AStr p]]
                    (streamed url p r w0) in
  completes r ->
  save_download net url p (Some d) existing cover w =
  if negb (d =? 0) && negb (len (body r) =? d) then
    match existing with
    | Some e =>
        (Returned true,
         add_log [mkLog CRITICAL "Size of file '%s' has changed from %s to %s"
                        [AStr p; AInt e; AInt (len (body r))]] w1)
    | None => (Raised (UnboundLocalError "existing_size"), w1)
    end
  else (Returned true, w1).
Proof.
  intros w0 r w1 H. subst w0 r w1.
  destruct w as [[br bs fd fsk] fs ds lg ck]. cbn in H.
  unfold save_download. run.
  rewrite download_with_retry_completes by exact H. cbn.
  destruct (negb (d =? 0) && negb (len (body _) =? d)); cbn; [|done].
  destruct existing; done.
Qed.

Lemma download_if_not_exists_eq net ge url output_path file_name extension size cover w :
  let head := head_of net (clock w) url in
  let name := resolve_file_name ge file_name extension (snd head) in
  let p := os_path_join output_path name in
  let d := download_size_of size (fst head) in
  exists rs,
    download_if_not_exists net ge url output_path file_name extension size cover w =
    bind (inspect_existing net url name p d cover)
         (fun flow =>
            match flow with
            | ReturnNow downloaded => ret downloaded
            | FallThrough existing_size => save_download net url p d existing_size cover
            end) (add_log rs (head_asked url w)).
Proof.
  intros head name p d.
  destruct (resolve_size_eq size (fst head) (head_asked url w)) as [rs Hrs].
  exists rs. unfold download_if_not_exists.
  erewrite bind_returned by apply get_size_and_content_type_eq.
  erewrite bind_returned by apply Hrs.
  reflexivity.
Qed.

#[local] Arguments inspect_existing : simpl never.
#[local] Arguments save_download : simpl never.

(** The engine where a file is there, the remote size [d] is known, and the
    two sizes differ and are not zero: what is left of the function. *)
Lemma engine_sizes_differ net ge url output_path file_name extension size cover w c d :
  let head := head_of net (clock w) url in
  let name := resolve_file_name ge file_name extension (snd head) in
  let p := os_path_join output_path name in
  download_size_of size (fst head) = Some d -> d <> 0 ->
  files w !! p = Some c -> len c <> 0 -> len c <> d ->
  exists w2,
    files w2 = files w /\ session w2 = session w /\ clock w2 = S (clock w) /\
    download_if_not_exists net ge url output_path file_name extension size cover w =
    if negb cover then
      bind (stream_download net url ("error-" +:+ name))
           (fun bytes_written =>
              raise (SizeChanged p (len c) d bytes_written ("error-" +:+ name))) w2
    else if d >=? len c then
      (Returned false,
       count_skip d (add_log [mkLog WARNING "The existing file is smaller, so keeping it" []] w2))
    else
      save_download net url p (Some d) (Some (len c)) cover
        (add_log [mkLog WARNING "New file is smaller, so downloading it" []] w2).
Proof.
  intros head name p Hd Hd0 Hc Hc0 Hcd.
  destruct (download_if_not_exists_eq net ge url output_path file_name extension size cover w)
    as [rs ->].
  fold head name p. rewrite Hd.
  unfold bind at 1.
  rewrite (inspect_present _ _ _ _ _ _ _ c) by exact Hc.
  cbn zeta. cbn [truthy_int default from_option id].
  apply Z.eqb_neq in Hd0, Hc0, Hcd. rewrite Hd0, Hc0, Hcd. cbn [negb].
  exists (add_log [mkLog WARNING "Size of file '%s' has changed from %s to %s"
                         [AStr p; AInt (len c); AInt d]]
            (add_log [mkLog DEBUG "File '%s' exists with size %s" [AStr p; AComma (len c)]]
               (add_log rs (head_asked url w)))).
  repeat split.
  destruct cover; cbn [negb].
  - destruct (d >=? len c); reflexivity.
  - unfold bind, raise.
    destruct (stream_download _ _ _ _) as [[a|e] w']; reflexivity.
Qed.

(** *** Paths *)

Lemma list_ascii_app (a b : string) :
  list_ascii_of_string (a +:+ b) = (list_ascii_of_string a ++ list_ascii_of_string b)%list.
Proof.
  induction a as [|x a IH]; [reflexivity|].
  change (x :: list_ascii_of_string (a +:+ b) =
          x :: (list_ascii_of_string a ++ list_ascii_of_string b)%list).
  by rewrite IH.
Qed.

Lemma list_ascii_inj (a b : string) :
  list_ascii_of_string a = list_ascii_of_string b -> a = b.
Proof.
  intros H. rewrite <- (string_of_list_ascii_of_string a), H.
  apply string_of_list_ascii_of_string.
Qed.

(** The error file of line 189 is never the file the engine was asked for. *)
Lemma join_not_error_file (output_path name : string) :
  os_path_join output_path name <> "error-" +:+ name.
Proof.
  unfold os_path_join. intros H.
  destruct (starts_with "/" name).
  { apply (f_equal list_ascii_of_string) in H. rewrite list_ascii_app in H.
    apply (app_inv_tail _ [] _) in H. discriminate H. }
  destruct (String.eqb output_path EmptyString || ends_with_sep output_path) eqn:E.
  - apply (f_equal list_ascii_of_string) in H. rewrite !list_ascii_app in H.
    apply app_inv_tail, list_ascii_inj in H. subst output_path. discriminate E.
  - apply (f_equal list_ascii_of_string) in H. rewrite !list_ascii_app in H.
    rewrite app_assoc in H. apply app_inv_tail in H.
    change (list_ascii_of_string "error-")
      with (list_ascii_of_string "error" ++ list_ascii_of_string "-")%list in H.
    apply app_inj_tail in H as [_ H]. discriminate H.
Qed.

(** *** The claims about the engine *)

(** C1 fails as stated: the copy of the remote content goes to the relative
    path [error-<name>], which is not a path in the output directory.  Here
    the file asked for is [out/a.zip]; the copy is [error-a.zip], and
    [out/error-a.zip] does not exist. *)
Lemma error_file_not_in_output_directory :
  let res := download_if_not_exists
               (steady_remote (Some 200) (Some "application/zip") 200 200) guess_few
               "https://app.gumroad.com/r/f1" "out" "a" (Some "zip") (Some 200) false
               (world_of {["out/a.zip" := zeros 100]}) in
  fst res = Raised (SizeChanged "out/a.zip" 100 200 200 "error-a.zip") /\
  files (snd res) !! "out/error-a.zip" = None /\
  files (snd res) !! "error-a.zip" = Some (zeros 200) /\
  files (snd res) !! "out/a.zip" = Some (zeros 100).
Proof. vm_compute. repeat split. Qed.

(** C1, amended: for a resource that is not a cover, with a known remote size
    and a local file of another, nonzero size, the engine streams the remote
    content to the relative path [error-<name>] (the resolved file name with
    [error-] in front, not joined to the output directory), never returns
    normally, and leaves the local file and every other file as they were;
    when the GET completes, what it raises carries the path, both sizes, the
    number of bytes written and the path of the copy. *)
Theorem size_mismatch_archives_and_raises
        net ge url output_path file_name extension size w c d :
  let head := head_of net (clock w) url in
  let name := resolve_file_name ge file_name extension (snd head) in
  let path := os_path_join output_path name in
  let error_file := "error-" +:+ name in
  let r := get_of net (S (clock w)) true url in
  let res := download_if_not_exists net ge url output_path file_name extension size false w in
  download_size_of size (fst head) = Some d -> d <> 0 ->
  files w !! path = Some c -> len c <> 0 -> len c <> d ->
  (files (snd res) !! path = Some c /\
   (forall q, q <> error_file -> files (snd res) !! q = files w !! q) /\
   (exists e, fst res = Raised e)) /\
  (completes r ->
   fst res = Raised (SizeChanged path (len c) d (len (body r)) error_file) /\
   files (snd res) !! error_file = Some (body r)).
Proof.
  intros head name path error_file r res Hd Hd0 Hc Hc0 Hcd.
  destruct (engine_sizes_differ net ge url output_path file_name extension size false
              w c d Hd Hd0 Hc Hc0 Hcd) as (w2 & Hf & Hs & Hk & Heq).
  fold name path error_file in Heq. cbn [negb] in Heq.
  subst res. rewrite Heq. clear Heq.
  assert (Hframe : forall q, q <> error_file ->
            files (snd (bind (stream_download net url error_file)
              (fun bytes_written =>
                 @raise bool (SizeChanged path (len c) d bytes_written error_file))
              w2)) !! q = files w !! q).
  { intros q Hq. rewrite <- Hf, <- (stream_download_frame net url error_file w2 q Hq).
    unfold bind, raise. by destruct (stream_download _ _ _ _) as [[a|e] w']. }
  split; [split; [|split]|].
  - rewrite Hframe; [done|]. apply join_not_error_file.
  - exact Hframe.
  - unfold bind, raise. destruct (stream_download _ _ _ _) as [[a|e] w']; by eexists.
  - intros Hr. subst r. rewrite <- Hk in Hr.
    erewrite bind_returned by (apply stream_download_completes; exact Hr).
    rewrite Hk. cbn. split; [done|]. apply lookup_insert_eq.
Qed.

Lemma size_mismatch_archives_and_raises_witness :
  let net := steady_remote (Some 200) (Some "application/zip") 200 200 in
  let res := download_if_not_exists net guess_few "u" "out" "a" (Some "zip") None false
               (world_of {["out/a.zip" := zeros 100]}) in
  fst res = Raised (SizeChanged "out/a.zip" 100 200 200 "error-a.zip") /\
  files (snd res) !! "error-a.zip" = Some (zeros 200).
Proof.
  refine (proj2 (size_mismatch_archives_and_raises
           (steady_remote (Some 200) (Some "application/zip") 200 200) guess_few
           "u" "out" "a" (Some "zip") None (world_of {["out/a.zip" := zeros 100]})
           (zeros 100) 200 _ _ _ _ _) _).
  - reflexivity.
  - lia.
  - vm_compute. reflexivity.
  - vm_compute. discriminate.
  - vm_compute. discriminate.
  - split; reflexivity.
Defined.

(** C3: for a cover with a known remote size [d] and a local file of another,
    nonzero size: when [d] is at least the local size the call skips (it
    returns false after the HEAD request alone, adds [d] to [bytes_skipped]
    and one to [files_skipped], and leaves the files alone); only when [d] is
    smaller does the engine download again, over the local file. *)
Theorem cover_keeps_unless_remote_smaller
        net ge url output_path file_name extension size w c d :
  let head := head_of net (clock w) url in
  let name := resolve_file_name ge file_name extension (snd head) in
  let path := os_path_join output_path name in
  let r := get_of net (S (clock w)) true url in
  let res := download_if_not_exists net ge url output_path file_name extension size true w in
  download_size_of size (fst head) = Some d -> d <> 0 ->
  files w !! path = Some c -> len c <> 0 -> len c <> d ->
  (len c <= d ->
   fst res = Returned false /\
   files (snd res) = files w /\
   session (snd res) =
     mkSession (bytes_read (session w)) (bytes_skipped (session w) + d)
               (files_downloaded (session w)) (files_skipped (session w) + 1) /\
   clock (snd res) = S (clock w)) /\
  (d < len c -> completes r ->
   fst res = Returned true /\
   files (snd res) = <[path := body r]> (files w) /\
   session (snd res) =
     mkSession (bytes_read (session w) + len (body r)) (bytes_skipped (session w))
               (files_downloaded (session w) + 1) (files_skipped (session w)) /\
   clock (snd res) = S (S (clock w))).
Proof.
  intros head name path r res Hd Hd0 Hc Hc0 Hcd.
  destruct (engine_sizes_differ net ge url output_path file_name extension size true
              w c d Hd Hd0 Hc Hc0 Hcd) as (w2 & Hf & Hs & Hk & Heq).
  fold name path in Heq. cbn [negb] in Heq. subst res. rewrite Heq. clear Heq.
  split.
  - intros Hle. rewrite (proj2 (Z.geb_le d (len c)) Hle). cbn.
    by rewrite Hf, Hs, Hk.
  - intros Hlt Hr.
    destruct (d >=? len c) eqn:E; [apply Z.geb_le in E; lia|].
    subst r. rewrite <- Hk in Hr.
    rewrite save_download_completes by exact Hr.
    destruct (negb (d =? 0) && negb (len (body _) =? d)); cbn;
      by rewrite Hf, Hs, Hk.
Qed.

Lemma cover_keeps_unless_remote_smaller_witness :
  let net := steady_remote (Some 150) (Some "image/png") 200 150 in
  let res := download_if_not_exists net guess_few "u" "out" "c1" (Some "png") None true
               (world_of {["out/c1.png" := zeros 200]}) in
  fst res = Returned true /\
  files (snd res) = <["out/c1.png" := zeros 150]> {["out/c1.png" := zeros 200]} /\
  session (snd res) = mkSession 150 0 1 0 /\
  clock (snd res) = 2%nat.
Proof.
  refine (proj2 (cover_keeps_unless_remote_smaller
           (steady_remote (Some 150) (Some "image/png") 200 150) guess_few
           "u" "out" "c1" (Some "png") None (world_of {["out/c1.png" := zeros 200]})
           (zeros 200) 150 _ _ _ _ _) _ _).
  - reflexivity.
  - lia.
  - vm_compute. reflexivity.
  - vm_compute. discriminate.
  - vm_compute. discriminate.
  - vm_compute. reflexivity.
  - split; reflexivity.
Defined.

(** C2 fails as stated, both ways round: with a local cover of 200 bytes and
    a remote size of 150 the call downloads and the file ends with 150 bytes;
    with a local cover of 150 bytes and a remote size of 200 the call skips
    and the file keeps its 150 bytes. *)
Lemma cover_sizes_200_150_the_other_way_round :
  let larger := download_if_not_exists
                  (steady_remote (Some 150) (Some "image/png") 200 150) guess_few
                  "u" "out" "c1" (Some "png") None true
                  (world_of {["out/c1.png" := zeros 200]}) in
  let smaller := download_if_not_exists
                   (steady_remote (Some 200) (Some "image/png") 200 200) guess_few
                   "u" "out" "c1" (Some "png") None true
                   (world_of {["out/c1.png" := zeros 150]}) in
  (fst larger = Returned true /\
   files (snd larger) !! "out/c1.png" = Some (zeros 150) /\
   files_skipped (session (snd larger)) = 0) /\
  (fst smaller = Returned false /\
   files (snd smaller) !! "out/c1.png" = Some (zeros 150) /\
   files_skipped (session (snd smaller)) = 1).
Proof. vm_compute. repeat split. Qed.

(** C2, amended: for a cover with a known remote size, a local file of 200
    bytes and a remote size of 150 make the call download over the local file,
    which ends with the body received (150 bytes when the body has the size
    announced); a local file of 150 bytes and a remote size of 200 make the
    call skip, and the local file is left as it was. *)
Theorem cover_200_150_downloads_and_150_200_skips
        net ge url output_path file_name extension size w c d :
  let head := head_of net (clock w) url in
  let name := resolve_file_name ge file_name extension (snd head) in
  let path := os_path_join output_path name in
  let r := get_of net (S (clock w)) true url in
  let res := download_if_not_exists net ge url output_path file_name extension size true w in
  download_size_of size (fst head) = Some d ->
  files w !! path = Some c ->
  (len c = 200 -> d = 150 -> completes r ->
   fst res = Returned true /\ files (snd res) !! path = Some (body r) /\
   (len (body r) = 150 -> len <$> files (snd res) !! path = Some 150)) /\
  (len c = 150 -> d = 200 ->
   fst res = Returned false /\ files (snd res) = files w /\
   files_skipped (session (snd res)) = files_skipped (session w) + 1 /\
   bytes_skipped (session (snd res)) = bytes_skipped (session w) + 200).
Proof.
  intros head name path r res Hd Hc.
  assert (Hres : forall w2, clock w2 = S (clock w) ->
            completes r -> completes (get_of net (clock w2) true url)).
  { intros w2 Hk Hr. by rewrite Hk. }
  split.
  - intros Hlen -> Hr.
    destruct (engine_sizes_differ net ge url output_path file_name extension size true
                w c 150 Hd ltac:(lia) Hc ltac:(lia) ltac:(lia)) as (w2 & Hf & _ & Hk & Heq).
    fold name path in Heq. cbn [negb] in Heq. rewrite Hlen in Heq.
    change (150 >=? 200) with false in Heq. cbn iota in Heq.
    rewrite save_download_completes in Heq by (apply (Hres w2 Hk Hr)).
    cbn [clock add_log] in Heq. rewrite Hk in Heq. fold r in Heq.
    subst res. rewrite Heq.
    destruct (negb (150 =? 0) && negb (len (body r) =? 150)); cbn;
      rewrite lookup_insert_eq; repeat split; intros E; cbn; by rewrite E.
  - intros Hlen ->.
    destruct (engine_sizes_differ net ge url output_path file_name extension size true
                w c 200 Hd ltac:(lia) Hc ltac:(lia) ltac:(lia)) as (w2 & Hf & Hs & _ & Heq).
    cbn [negb] in Heq. rewrite Hlen in Heq.
    change (200 >=? 150) with true in Heq. cbn iota in Heq.
    subst res. rewrite Heq. cbn. by rewrite Hf, Hs.
Qed.

Lemma cover_200_150_downloads_and_150_200_skips_witness :
  let net := steady_remote (Some 200) (Some "image/png") 200 200 in
  let w := world_of {["out/c1.png" := zeros 150]} in
  let res := download_if_not_exists net guess_few "u" "out" "c1" (Some "png") None true w in
  fst res = Returned false /\ files (snd res) = files w /\
  files_skipped (session (snd res)) = 1 /\ bytes_skipped (session (snd res)) = 200.
Proof.
  refine (proj2 (cover_200_150_downloads_and_150_200_skips
           (steady_remote (Some 200) (Some "image/png") 200 200) guess_few
           "u" "out" "c1" (Some "png") None (world_of {["out/c1.png" := zeros 150]})
           (zeros 150) 200 _ _) _ _).
  - reflexivity.
  - vm_compute. reflexivity.
  - vm_compute. reflexivity.
  - reflexivity.
Defined.

(** The engine where no file is there, or an empty one, and the GET brings
    as many bytes as the known remote size: it downloads. *)
Lemma engine_fresh net ge url output_path file_name extension size cover w d :
  let head := head_of net (clock w) url in
  let name := resolve_file_name ge file_name extension (snd head) in
  let p := os_path_join output_path name in
  let r := get_of net (S (clock w)) true url in
  download_size_of size (fst head) = Some d -> d <> 0 ->
  files w !! p = None \/ files w !! p = Some [] ->
  completes r -> len (body r) = d ->
  exists w',
    download_if_not_exists net ge url output_path file_name extension size cover w =
      (Returned true, w') /\
    files w' = <[p := body r]> (files w) /\
    session w' = mkSession (bytes_read (session w) + d) (bytes_skipped (session w))
                           (files_downloaded (session w) + 1) (files_skipped (session w)) /\
    clock w' = S (S (clock w)).
Proof.
  intros head name p r Hd Hd0 Hp Hr Hlen.
  destruct (download_if_not_exists_eq net ge url output_path file_name extension size cover w)
    as [rs ->].
  fold head name p. rewrite Hd. unfold bind at 1.
  assert (Hb : negb (d =? 0) && negb (len (body r) =? d) = false).
  { rewrite Hlen, Z.eqb_refl. apply andb_false_r. }
  destruct Hp as [Hp|Hp].
  - rewrite inspect_absent by exact Hp.
    rewrite save_download_completes by exact Hr.
    cbn [clock add_log head_asked]. fold r. rewrite Hb.
    eexists. split; [reflexivity|]. cbn. fold r. by rewrite Hlen.
  - rewrite (inspect_present _ _ _ _ _ _ _ []) by exact Hp.
    cbn zeta. cbn [truthy_int default from_option id].
    apply Z.eqb_neq in Hd0. rewrite Hd0. cbn [negb].
    change (len [] =? 0) with true. cbn iota.
    rewrite save_download_completes by exact Hr.
    cbn [clock add_log head_asked]. fold r. rewrite Hb.
    eexists. split; [reflexivity|]. cbn. fold r. by rewrite Hlen.
Qed.

(** The engine where the file is there with the known remote size: it skips. *)
Lemma engine_same_size net ge url output_path file_name extension size cover w c d :
  let head := head_of net (clock w) url in
  let name := resolve_file_name ge file_name extension (snd head) in
  let p := os_path_join output_path name in
  download_size_of size (fst head) = Some d -> d <> 0 ->
  files w !! p = Some c -> len c = d ->
  exists w',
    download_if_not_exists net ge url output_path file_name extension size cover w =
      (Returned false, w') /\
    files w' = files w /\
    session w' = mkSession (bytes_read (session w)) (bytes_skipped (session w) + d)
                           (files_downloaded (session w)) (files_skipped (session w) + 1) /\
    clock w' = S (clock w).
Proof.
  intros head name p Hd Hd0 Hp Hlen.
  destruct (download_if_not_exists_eq net ge url output_path file_name extension size cover w)
    as [rs ->].
  fold head name p. rewrite Hd. unfold bind at 1.
  rewrite (inspect_present _ _ _ _ _ _ _ c) by exact Hp.
  cbn zeta. cbn [truthy_int default from_option id].
  rewrite Hlen. apply Z.eqb_neq in Hd0. rewrite Hd0, Z.eqb_refl. cbn [negb].
  eexists. split; [reflexivity|]. by cbn.
Qed.

(** C5 fails as stated: take a resource that is not a cover, with a known
    remote size of 200, whose GET brings 300 bytes, and an empty local file.
    The first call downloads; the second, with the remote unchanged, finds
    300 bytes against 200 and raises. *)
Lemma second_call_raises_when_body_is_not_the_known_size :
  let net := steady_remote (Some 200) (Some "application/zip") 200 300 in
  let first := download_if_not_exists net guess_few "u" "out" "a" (Some "zip") None false
                 (world_of {["out/a.zip" := []]}) in
  let second := download_if_not_exists net guess_few "u" "out" "a" (Some "zip") None false
                  (snd first) in
  fst first = Returned true /\
  fst second = Raised (SizeChanged "out/a.zip" 300 200 300 "error-a.zip").
Proof. vm_compute. split; reflexivity. Qed.

(** C5, amended: for a resource that is not a cover, with a known remote size,
    no local file or an empty one, and a remote that does not change and whose
    GET brings exactly as many bytes as the known size: the first call
    downloads, and the second skips: it leaves the files alone, adds the size
    to [bytes_skipped] and one to [files_skipped], and downloads nothing. *)
Theorem download_then_skip net ge url output_path file_name extension size w d :
  let head := head_of net (clock w) url in
  let name := resolve_file_name ge file_name extension (snd head) in
  let path := os_path_join output_path name in
  let r := get_of net (S (clock w)) true url in
  let first := download_if_not_exists net ge url output_path file_name extension size false w in
  let second := download_if_not_exists net ge url output_path file_name extension size false
                  (snd first) in
  download_size_of size (fst head) = Some d -> d <> 0 ->
  files w !! path = None \/ files w !! path = Some [] ->
  completes r -> len (body r) = d ->
  head_of net (S (S (clock w))) url = head ->
  fst first = Returned true /\
  files (snd first) !! path = Some (body r) /\
  fst second = Returned false /\
  files (snd second) = files (snd first) /\
  files_downloaded (session (snd second)) = files_downloaded (session (snd first)) /\
  bytes_skipped (session (snd second)) = bytes_skipped (session (snd first)) + d /\
  files_skipped (session (snd second)) = files_skipped (session (snd first)) + 1.
Proof.
  intros head name path r first second Hd Hd0 Hp Hr Hlen Hsame.
  destruct (engine_fresh net ge url output_path file_name extension size false w d
              Hd Hd0 Hp Hr Hlen) as (w1 & H1 & Hf1 & Hs1 & Hk1).
  fold head name path r in Hf1.
  assert (Hfirst : first = (Returned true, w1)) by exact H1.
  assert (Hhead : head_of net (clock w1) url = head) by (rewrite Hk1; exact Hsame).
  destruct (engine_same_size net ge url output_path file_name extension size false
              w1 (body r) d) as (w2 & H2 & Hf2 & Hs2 & Hk2).
  - by rewrite Hhead.
  - exact Hd0.
  - rewrite Hhead, Hf1. apply lookup_insert_eq.
  - exact Hlen.
  - assert (Hsecond : second = (Returned false, w2)).
    { subst second. rewrite Hfirst. exact H2. }
    rewrite Hsecond, Hfirst. cbn [fst snd].
    rewrite Hf1, Hf2, Hs2, lookup_insert_eq. cbn. done.
Qed.

Lemma download_then_skip_witness :
  let net := steady_remote (Some 200) (Some "application/zip") 200 200 in
  let first := download_if_not_exists net guess_few "u" "out" "a" (Some "zip") None false
                 (world_of ∅) in
  let second := download_if_not_exists net guess_few "u" "out" "a" (Some "zip") None false
                  (snd first) in
  fst first = Returned true /\ fst second = Returned false.
Proof.
  pose proof (download_then_skip
           (steady_remote (Some 200) (Some "application/zip") 200 200) guess_few
           "u" "out" "a" (Some "zip") None (world_of ∅) 200) as H.
  cbv zeta in H.
  destruct H as (H1 & _ & H2 & _).
  - reflexivity.
  - lia.
  - left. vm_compute. reflexivity.
  - split; reflexivity.
  - vm_compute. reflexivity.
  - reflexivity.
  - split; [exact H1 | exact H2].
Defined.

(** C4, at the input where the code fails: no local file, a remote size of
    200 known from the HEAD request, and a GET that brings 150 bytes.  The
    download is done and the file written, but the call raises: the message
    of line 229 reads [existing_size], which no branch assigned.  With an
    empty local file in place the same download returns normally, after the
    CRITICAL record. *)
Lemma size_anomaly_on_new_file_raises :
  let net := steady_remote (Some 200) (Some "application/zip") 200 150 in
  let new := download_if_not_exists net guess_few "u" "out" "a" (Some "zip") None false
               (world_of ∅) in
  let empty := download_if_not_exists net guess_few "u" "out" "a" (Some "zip") None false
                 (world_of {["out/a.zip" := []]}) in
  (fst new = Raised (UnboundLocalError "existing_size") /\
   files (snd new) !! "out/a.zip" = Some (zeros 150) /\
   files_downloaded (session (snd new)) = 1) /\
  (fst empty = Returned true /\
   last (log (snd empty)) =
     Some (mkLog CRITICAL "Size of file '%s' has changed from %s to %s"
                 [AStr "out/a.zip"; AInt 0; AInt 150])).
Proof. vm_compute. repeat split. Qed.

(** The same for every call: where no local file was there and the GET
    brings another number of bytes than the known remote size, the call
    raises after the download. *)
Lemma size_anomaly_on_new_file net ge url output_path file_name extension size cover w d :
  let head := head_of net (clock w) url in
  let name := resolve_file_name ge file_name extension (snd head) in
  let p := os_path_join output_path name in
  let r := get_of net (S (clock w)) true url in
  let res := download_if_not_exists net ge url output_path file_name extension size cover w in
  download_size_of size (fst head) = Some d -> d <> 0 ->
  files w !! p = None -> completes r -> len (body r) <> d ->
  fst res = Raised (UnboundLocalError "existing_size") /\
  files (snd res) !! p = Some (body r).
Proof.
  intros head name p r res Hd Hd0 Hp Hr Hlen.
  destruct (download_if_not_exists_eq net ge url output_path file_name extension size
              cover w) as [rs Heq].
  eassert (E : res = _).
  { subst res. rewrite Heq. fold head name p. rewrite Hd. unfold bind at 1.
    rewrite inspect_absent by exact Hp.
    rewrite save_download_completes by exact Hr.
    cbn [clock add_log head_asked]. fold r.
    apply Z.eqb_neq in Hd0, Hlen. rewrite Hd0, Hlen. cbn [negb andb]. reflexivity. }
  rewrite E. cbn. split; [done|]. apply lookup_insert_eq.
Qed.

(** C10: a size of zero counts as unknown.  An expected size of 0 from the
    caller is the same as none; and where the size the engine resolves is 0
    and the local file is not empty, the engine takes the branch of the
    unknown size: it logs at CRITICAL, downloads over the file and returns
    true, counts no skip, and writes no other file. *)
Theorem zero_size_is_unknown net ge url output_path file_name extension is_cover w :
  let head := head_of net (clock w) url in
  let name := resolve_file_name ge file_name extension (snd head) in
  let path := os_path_join output_path name in
  let r := get_of net (S (clock w)) true url in
  download_if_not_exists net ge url output_path file_name extension (Some 0) is_cover w =
  download_if_not_exists net ge url output_path file_name extension None is_cover w /\
  (forall w0, inspect_existing net url name path (Some 0) is_cover w0 =
              inspect_existing net url name path None is_cover w0) /\
  (forall size c,
     let res := download_if_not_exists net ge url output_path file_name extension size
                  is_cover w in
     download_size_of size (fst head) = Some 0 ->
     files w !! path = Some c -> len c <> 0 -> completes r ->
     fst res = Returned true /\
     files (snd res) = <[path := body r]> (files w) /\
     bytes_skipped (session (snd res)) = bytes_skipped (session w) /\
     files_skipped (session (snd res)) = files_skipped (session w) /\
     logged CRITICAL
       "Unknown download size of url %s, overwriting existing file '%s' with size %s"
       (log (snd res))).
Proof.
  intros head name path r. split; [reflexivity|]. split; [reflexivity|].
  intros size c res Hd Hc Hc0 Hr.
  destruct (download_if_not_exists_eq net ge url output_path file_name extension size
              is_cover w) as [rs Heq].
  eassert (E : res = _).
  { subst res. rewrite Heq. fold head name path. rewrite Hd. unfold bind at 1.
    rewrite (inspect_present _ _ _ _ _ _ _ c) by exact Hc.
    cbn zeta. cbn [truthy_int negb]. change (0 =? 0) with true. cbn [negb].
    rewrite save_download_completes by exact Hr.
    change (0 =? 0) with true. cbn [negb andb]. reflexivity. }
  rewrite E. cbn. repeat split.
  unfold logged. eexists. find_logged.
Qed.

Lemma zero_size_is_unknown_witness :
  let net := steady_remote (Some 0) (Some "image/png") 200 50 in
  let w := world_of {["out/thumbnail.png" := zeros 70]} in
  let res := download_if_not_exists net guess_few "u" "out" "thumbnail" None (Some 0) true w in
  fst res = Returned true /\
  files (snd res) = <["out/thumbnail.png" := zeros 50]> (files w).
Proof.
  pose proof (proj2 (proj2 (zero_size_is_unknown
           (steady_remote (Some 0) (Some "image/png") 200 50) guess_few
           "u" "out" "thumbnail" None true (world_of {["out/thumbnail.png" := zeros 70]})))
           (Some 0) (zeros 70)) as H.
  cbv zeta in H. destruct H as (H1 & H2 & _).
  - reflexivity.
  - vm_compute. reflexivity.
  - vm_compute. discriminate.
  - split; reflexivity.
  - split; [exact H1 | exact H2].
Defined.

Lemma save_download_unknown net url p existing cover w :
  save_download net url p None existing cover w =
  (Raised (TypeError "unsupported format string passed to NoneType.__format__"), w).
Proof. reflexivity. Qed.

(** X1: where neither the caller nor the HEAD response gives a size, the call
    raises the [TypeError] of [format(None, ',')] at line 211, whether or not
    a local file is there: no GET is made, and the files and the counters are
    as they were. *)
Theorem unknown_size_raises_before_download
        net ge url output_path file_name extension size is_cover w :
  let head := head_of net (clock w) url in
  let res := download_if_not_exists net ge url output_path file_name extension size is_cover w in
  download_size_of size (fst head) = None ->
  (exists what, fst res = Raised (TypeError what)) /\
  files (snd res) = files w /\
  session (snd res) = session w /\
  clock (snd res) = S (clock w).
Proof.
  intros head res Hd.
  destruct (download_if_not_exists_eq net ge url output_path file_name extension size
              is_cover w) as [rs Heq].
  subst res. rewrite Heq. fold head. rewrite Hd. unfold bind.
  destruct (files w !! os_path_join output_path
              (resolve_file_name ge file_name extension (snd head))) as [c|] eqn:Hp.
  - rewrite (inspect_present _ _ _ _ _ _ _ c) by exact Hp.
    cbn zeta. cbn [truthy_int]. rewrite save_download_unknown. cbn.
    repeat split. by eexists.
  - rewrite inspect_absent by exact Hp. rewrite save_download_unknown. cbn.
    repeat split. by eexists.
Qed.

Lemma unknown_size_raises_before_download_witness :
  let w := world_of {["out/thumbnail.png" := zeros 70]} in
  let res := download_if_not_exists (steady_remote None (Some "image/png") 200 50) guess_few
               "u" "out" "thumbnail" None None true w in
  files (snd res) = files w /\ clock (snd res) = 1%nat.
Proof.
  pose proof (unknown_size_raises_before_download
           (steady_remote None (Some "image/png") 200 50) guess_few
           "u" "out" "thumbnail" None None true
           (world_of {["out/thumbnail.png" := zeros 70]})) as H.
  cbv zeta in H. destruct H as (_ & H1 & _ & H2); [reflexivity|].
  split; [exact H1 | exact H2].
Defined.

(** X2: an empty local file is downloaded again, cover or not, whatever the
    known remote size and the number of bytes the GET brings. *)
Theorem empty_file_is_downloaded_again
        net ge url output_path file_name extension size is_cover w d :
  let head := head_of net (clock w) url in
  let name := resolve_file_name ge file_name extension (snd head) in
  let path := os_path_join output_path name in
  let r := get_of net (S (clock w)) true url in
  let res := download_if_not_exists net ge url output_path file_name extension size is_cover w in
  download_size_of size (fst head) = Some d -> d <> 0 ->
  files w !! path = Some [] -> completes r ->
  fst res = Returned true /\
  files (snd res) = <[path := body r]> (files w) /\
  files_downloaded (session (snd res)) = files_downloaded (session w) + 1.
Proof.
  intros head name path r res Hd Hd0 Hp Hr.
  destruct (download_if_not_exists_eq net ge url output_path file_name extension size
              is_cover w) as [rs Heq].
  subst res. rewrite Heq. fold head name path. rewrite Hd. unfold bind.
  rewrite (inspect_present _ _ _ _ _ _ _ []) by exact Hp.
  cbn zeta. cbn [truthy_int default from_option id].
  apply Z.eqb_neq in Hd0. rewrite Hd0. cbn [negb].
  change (len [] =? 0) with true. cbn iota.
  rewrite save_download_completes by exact Hr.
  cbn [clock add_log head_asked]. fold r.
  destruct (negb (d =? 0) && negb (len (body r) =? d)); cbn; done.
Qed.

Lemma empty_file_is_downloaded_again_witness :
  let w := world_of {["out/a.zip" := []]} in
  let res := download_if_not_exists (steady_remote (Some 200) None 200 150) guess_few
               "u" "out" "a" (Some "zip") None false w in
  fst res = Returned true /\ files (snd res) = <["out/a.zip" := zeros 150]> (files w).
Proof.
  pose proof (empty_file_is_downloaded_again
           (steady_remote (Some 200) None 200 150) guess_few
           "u" "out" "a" (Some "zip") None false (world_of {["out/a.zip" := []]}) 200) as H.
  cbv zeta in H. destruct H as (H1 & H2 & _).
  - reflexivity.
  - lia.
  - vm_compute. reflexivity.
  - split; reflexivity.
  - split; [exact H1 | exact H2].
Defined.

(** X3: a local file that has the known remote size is left alone: the call
    returns false after the HEAD request, and counts the skip. *)
Theorem same_size_is_skipped
        net ge url output_path file_name extension size is_cover w c d :
  let head := head_of net (clock w) url in
  let name := resolve_file_name ge file_name extension (snd head) in
  let path := os_path_join output_path name in
  let res := download_if_not_exists net ge url output_path file_name extension size is_cover w in
  download_size_of size (fst head) = Some d -> d <> 0 ->
  files w !! path = Some c -> len c = d ->
  fst res = Returned false /\
  files (snd res) = files w /\
  session (snd res) =
    mkSession (bytes_read (session w)) (bytes_skipped (session w) + d)
              (files_downloaded (session w)) (files_skipped (session w) + 1) /\
  clock (snd res) = S (clock w).
Proof.
  intros head name path res Hd Hd0 Hp Hlen.
  destruct (engine_same_size net ge url output_path file_name extension size is_cover
              w c d Hd Hd0 Hp Hlen) as (w' & H & Hf & Hs & Hk).
  subst res. rewrite H. by cbn.
Qed.

Lemma same_size_is_skipped_witness :
  let w := world_of {["out/a.zip" := zeros 200]} in
  let res := download_if_not_exists (steady_remote (Some 200) None 200 200) guess_few
               "u" "out" "a" (Some "zip") None false w in
  fst res = Returned false /\ files (snd res) = files w.
Proof.
  pose proof (same_size_is_skipped
           (steady_remote (Some 200) None 200 200) guess_few
           "u" "out" "a" (Some "zip") None false (world_of {["out/a.zip" := zeros 200]})
           (zeros 200) 200) as H.
  cbv zeta in H. destruct H as (H1 & H2 & _).
  - reflexivity.
  - lia.
  - vm_compute. reflexivity.
  - vm_compute. reflexivity.
  - split; [exact H1 | exact H2].
Defined.

(** *** The file name *)

Lemma append_empty_r (s : string) : s +:+ EmptyString = s.
Proof.
  induction s as [|a s IH]; [reflexivity|].
  change (String a (s +:+ EmptyString) = String a s). by rewrite IH.
Qed.

Lemma truthy_str_Some (s : string) : s <> EmptyString -> truthy_str (Some s) = true.
Proof. intros H. cbn. by destruct s. Qed.

Lemma resolve_file_name_explicit ge file_name e content_type :
  e <> EmptyString ->
  resolve_file_name ge file_name (Some e) content_type = file_name +:+ "." +:+ e.
Proof.
  intros He. unfold resolve_file_name, resolve_extension.
  rewrite (truthy_str_Some e He). reflexivity.
Qed.

Lemma resolve_file_name_derived ge file_name absent content_type :
  truthy_str absent = false -> content_type <> EmptyString ->
  resolve_file_name ge file_name absent (Some content_type) =
  match ge content_type with
  | Some x => file_name +:+ x
  | None => file_name
  end.
Proof.
  intros Ha Hc. unfold resolve_file_name, resolve_extension.
  rewrite Ha, (truthy_str_Some content_type Hc). cbn [default from_option id].
  destruct (ge content_type) as [x|]; [|reflexivity].
  destruct x; [|reflexivity].
  cbn. symmetry. apply append_empty_r.
Qed.

(** C6 fails as stated for the generic type: [mimetypes] maps
    [application/octet-stream] to [.bin], and the engine appends what it is
    given. *)
Lemma octet_stream_gets_an_extension :
  guess_few "application/octet-stream" = Some ".bin" /\
  resolve_file_name guess_few "thumbnail" None (Some "application/octet-stream")
  = "thumbnail.bin".
Proof. split; reflexivity. Qed.

(** C6, amended: with an explicit extension the file name is the base name, a
    dot and the extension, and neither the content type of the HEAD response
    nor [guess_extension] has any part in the call; with none, the extension
    is what [guess_extension] makes of the content type ([image/png] gives a
    name that ends in [.png]), whatever the type, generic ones included; only
    a content type [guess_extension] has no entry for leaves the base name as
    it is. *)
Theorem extension_resolution ge file_name :
  (forall e content_type,
     e <> EmptyString ->
     resolve_file_name ge file_name (Some e) content_type = file_name +:+ "." +:+ e) /\
  (forall net other_type ge' e url output_path size is_cover w,
     e <> EmptyString ->
     download_if_not_exists
       (mkRemote (fun t u => (fst (head_of net t u), other_type t u)) (get_of net)) ge'
       url output_path file_name (Some e) size is_cover w =
     download_if_not_exists net ge url output_path file_name (Some e) size is_cover w) /\
  (forall content_type x,
     content_type <> EmptyString -> ge content_type = Some x ->
     resolve_file_name ge file_name None (Some content_type) = file_name +:+ x) /\
  (ge "image/png" = Some ".png" ->
   resolve_file_name ge file_name None (Some "image/png") = file_name +:+ ".png") /\
  (forall content_type,
     ge content_type = None ->
     resolve_file_name ge file_name None (Some content_type) = file_name) /\
  resolve_file_name ge file_name None None = file_name.
Proof.
  split; [|split; [|split; [|split; [|split]]]].
  - intros e content_type He. by apply resolve_file_name_explicit.
  - intros net other_type ge' e url output_path size is_cover w He.
    unfold download_if_not_exists.
    unfold bind at 1. unfold bind at 3.
    rewrite !get_size_and_content_type_eq. cbn [fst snd head_of clock].
    rewrite !(resolve_file_name_explicit _ _ _ _ He).
    reflexivity.
  - intros content_type x Hc Hx.
    rewrite resolve_file_name_derived by done. by rewrite Hx.
  - intros Hx. rewrite resolve_file_name_derived by done. by rewrite Hx.
  - intros content_type Hx. destruct content_type as [|a content_type]; [reflexivity|].
    rewrite resolve_file_name_derived by done. by rewrite Hx.
  - reflexivity.
Qed.

Lemma extension_resolution_witness :
  resolve_file_name guess_few "cover" (Some "jpg") (Some "image/png") = "cover.jpg" /\
  resolve_file_name guess_few "cover" None (Some "image/png") = "cover.png" /\
  resolve_file_name guess_few "cover" None (Some "application/x-unknown") = "cover".
Proof.
  destruct (extension_resolution guess_few "cover") as (H1 & _ & _ & H2 & H3 & _).
  split; [|split].
  - apply (H1 "jpg" (Some "image/png")). discriminate.
  - apply H2. reflexivity.
  - apply (H3 "application/x-unknown"). reflexivity.
Defined.

(** *** The fetch client *)

Lemma get_content_eq net url is404_ok w :
  get_content net url is404_ok w =
  let r := get_of net (clock w) true url in
  let w1 := mkWorld (session w) (files w) (dirs w)
                    (log w ++ [mkLog DEBUG "Downloading %s" [AStr url]])%list (S (clock w)) in
  if negb (is404_ok && (status_code r =? 404)) && is_error_status (status_code r) then
    (Raised (HTTPError (status_code r)), w1)
  else if broken r then (Raised ChunkedEncodingError, w1)
  else
    (Returned (body r),
     mkWorld (mkSession (bytes_read (session w) + len (body r)) (bytes_skipped (session w))
                        (files_downloaded (session w) + 1) (files_skipped (session w)))
             (files w) (dirs w) (log w1) (clock w1)).
Proof.
  destruct w as [[br bs fd fsk] fs ds lg ck].
  unfold get_content, do_get, read_content. run.
  destruct (is404_ok && (status_code _ =? 404)); cbn.
  - destruct (broken _); done.
  - destruct (is_error_status _); cbn; [done|]. destruct (broken _); done.
Qed.

(** C7 fails as stated: a response with status 204 is not 200, and not a 404
    that is let through, yet [get_content] raises nothing: it returns the
    body and counts the file. *)
Lemma get_content_returns_on_204 :
  let net := steady_remote None None 204 0 in
  let res := get_content net "https://app.gumroad.com/library" false (world_of ∅) in
  status_code (get_of net 0%nat true "https://app.gumroad.com/library") = 204 /\
  fst res = Returned [] /\
  files_downloaded (session (snd res)) = 1.
Proof. vm_compute. repeat split. Qed.

(** C7, amended: [get_content] raises an HTTP error exactly when the status
    is a 4xx or 5xx code, unless it is 404 and [is404_ok] is set; a status
    below 400 other than 200 (204, say) raises nothing.  Every call that
    returns has added the length of the body to [bytes_read] and one to
    [files_downloaded]. *)
Theorem get_content_raises_on_error_status net url is404_ok w :
  let r := get_of net (clock w) true url in
  let res := get_content net url is404_ok w in
  ((exists status, fst res = Raised (HTTPError status)) <->
   (400 <= status_code r < 600 /\ ~ (is404_ok = true /\ status_code r = 404))) /\
  (forall content,
     fst res = Returned content ->
     content = body r /\
     bytes_read (session (snd res)) = bytes_read (session w) + len content /\
     files_downloaded (session (snd res)) = files_downloaded (session w) + 1).
Proof.
  intros r res. subst res. rewrite get_content_eq. cbn zeta. fold r.
  unfold is_error_status.
  destruct is404_ok; cbn [andb negb];
    destruct (status_code r =? 404) eqn:E404; cbn [andb negb];
    destruct (400 <=? status_code r) eqn:E4; cbn [andb];
    destruct (status_code r <? 600) eqn:E6; cbn [andb];
    destruct (broken r); cbn;
    (split; [split; [intros [s Hs]; try discriminate Hs; lia | intros [Hr Hn]; try (eexists; reflexivity); try lia; try (exfalso; apply Hn; split; [reflexivity|lia])] | intros content Hc; try discriminate Hc; injection Hc as <-; done]).
Qed.

(** *** The orchestrator *)

(** C8, at the input where the code fails.  The test of line 433 looks at the
    url with the platform prefix already in front, so it holds for every item
    that has a url, and the branch that skips is never taken.  The item
    [item_foreign] gets the url [https://app.gumroad.com.evil.example/f.zip],
    whose host is not the platform's: [ContentItem.is_external] says so, and
    yet the orchestrator asks that host for the file and writes it. *)
Lemma foreign_host_is_downloaded :
  (forall item, truthy_str (ci_download_url item) = true ->
     str_in "gumroad.com" (default EmptyString (get_full_download_url item)) = true) /\
  let res := download_content_item (steady_remote (Some 4) (Some "application/zip") 200 4)
               guess_few keep_name "out/p" (product_of None) 0 1 1 0 item_foreign
               (world_of ∅) in
  get_full_download_url item_foreign = Some "https://app.gumroad.com.evil.example/f.zip" /\
  ci_is_external item_foreign = true /\
  fst res = Returned tt /\
  urls_fetched (log (snd res)) = [[AStr "https://app.gumroad.com.evil.example/f.zip"]] /\
  files (snd res) !! "out/p/item-9/f.zip" = Some (zeros 4).
Proof.
  split.
  - intros item H. unfold get_full_download_url. rewrite H.
    cbn [default from_option id]. generalize (default EmptyString (ci_download_url item)).
    intros rest. vm_compute. reflexivity.
  - vm_compute. repeat split.
Qed.

(** C9 fails as stated: the run of the scenario ends with five files counted,
    not two. *)
Lemma scenario_counts_five_not_two :
  fst (scenario_run None) = Returned tt /\
  files_downloaded (session (snd (scenario_run None))) = 5 /\
  files_downloaded (session (snd (scenario_run None))) <> 2.
Proof. vm_compute. repeat split. discriminate. Qed.

(** C9, amended: in the run of the scenario the internal cover is downloaded,
    the external cover is skipped with a log record, the file is downloaded
    into the directory named by its id, the item that is only an external
    link is skipped with a log record, and [files_downloaded] ends at 5: the
    library page, the product page and the store page are fetched through the
    same counter as the cover and the file (6 with a thumbnail). *)
Theorem scenario_counts_pages_too :
  let res := scenario_run None in
  fst res = Returned tt /\
  files (snd res) !! "out/ada/Brush Pack/cov-image.png" = Some (zeros 3) /\
  files (snd res) !! "out/ada/Brush Pack/cov-video" = None /\
  logged INFO "Skipping external cover url %s" (log (snd res)) /\
  files (snd res) !! "out/ada/Brush Pack/item-1/brushes.zip" = Some (zeros 4) /\
  "out/ada/Brush Pack/item-1" ∈ dirs (snd res) /\
  logged WARNING "File '%s' has an external url you will need to download manually %s"
         (log (snd res)) /\
  urls_fetched (log (snd res)) =
    [[AStr "https://app.gumroad.com/library"];
     [AStr "https://public-files.gumroad.com/cov-image"];
     [AStr "https://app.gumroad.com/d/brush-pack"];
     [AStr "https://ada.gumroad.com/l/brush-pack"];
     [AStr "https://app.gumroad.com/r/item-1"]] /\
  files_downloaded (session (snd res)) = 5 /\
  files_skipped (session (snd res)) = 0 /\
  files_downloaded
    (session (snd (scenario_run (Some "https://public-files.gumroad.com/thumb")))) = 6.
Proof.
  cbv zeta. repeat apply conj.
  - vm_compute. reflexivity.
  - vm_compute. reflexivity.
  - vm_compute. reflexivity.
  - exists [AStr "https://www.youtube.com/watch?v=x1"]. in_log.
  - vm_compute. reflexivity.
  - apply (bool_decide_unpack _). vm_compute. exact I.
  - exists [AStr "tutorial"; AStr "https://example.org/tutorial"]. in_log.
  - vm_compute. reflexivity.
  - vm_compute. reflexivity.
  - vm_compute. reflexivity.
  - vm_compute. reflexivity.
Qed.

(** *** What a call of the engine can do, whatever the remote answers *)

Lemma len_nonneg (b : bytes) : 0 <= len b.
Proof. unfold len. lia. Qed.


(** Case on every test left in the goal. *)
Ltac split_ifs :=
  repeat match goal with
         | |- context [if ?b then _ else _] => destruct b eqn:?; cbn
         end.

(** Close a goal about the effects of a computed world. *)
Ltac effects_done :=
  unfold effects, session_le; cbn;
  repeat match goal with
         | |- context [len ?b] =>
             lazymatch goal with
             | _ : 0 <= len b |- _ => fail
             | _ => pose proof (len_nonneg b)
             end
         end;
  repeat split; try lia;
  try (intros; rewrite ?lookup_insert_ne by congruence; reflexivity).

Lemma save_download_effects net url p e d existing cover w :
  let res := save_download net url p d existing cover w in
  effects p e (if cover then 2 else 1) w (snd res) /\
  (forall b, fst res = Returned b ->
     b = true /\
     files_downloaded (session (snd res)) = files_downloaded (session w) + 1 /\
     files_skipped (session (snd res)) = files_skipped (session w) /\
     bytes_skipped (session (snd res)) = bytes_skipped (session w)).
Proof.
  destruct w as [[br bs fd fsk] fs ds lg ck].
  destruct d as [d|];
    [|cbn zeta; rewrite save_download_unknown;
      split; [effects_done; destruct cover; lia | discriminate]].
  unfold save_download, download_with_retry, try_except. run.
  destruct existing, cover;
    repeat (rewrite stream_download_eq; cbn; split_ifs);
    (split; [effects_done
            | intros b Hb; try discriminate Hb; injection Hb as <-; repeat split; lia]).
Qed.

(** The branches of the engine that end in [save_download]. *)
Lemma engine_post_save net url p e d existing cover w w1 :
  session w1 = session w -> files w1 = files w -> dirs w1 = dirs w ->
  clock w1 = S (clock w) ->
  engine_post p e d cover w (save_download net url p d existing cover w1).
Proof.
  intros Hs Hf Hd Hk.
  destruct (save_download_effects net url p e d existing cover w1) as [(H1 & H2 & H3 & H4) H5].
  cbv zeta in *. rewrite Hs, ?Hf, ?Hd, ?Hk in *.
  unfold engine_post, effects.
  split; [split; [exact H1 | split; [destruct cover; lia | split; [exact H3 | exact H4]]]|].
  split; [lia|]. split; intros H.
  - by destruct (H5 true H) as (_ & ? & ? & ?).
  - by destruct (H5 false H) as [? _].
Qed.

(** The branches of the engine that skip. *)
Lemma engine_post_skip p e d cover w w1 :
  session w1 = session w -> files w1 = files w -> dirs w1 = dirs w ->
  clock w1 = S (clock w) -> 0 <= d ->
  engine_post p e (Some d) cover w (Returned false, count_skip d w1).
Proof.
  intros Hs Hf Hd Hk H0.
  unfold engine_post, effects, session_le. cbn. rewrite Hs, Hf, Hd, Hk.
  repeat split; try lia; try discriminate; try (destruct cover; lia).
Qed.

Lemma engine_effects net ge url output_path file_name extension size cover w :
  let head := head_of net (clock w) url in
  let name := resolve_file_name ge file_name extension (snd head) in
  let p := os_path_join output_path name in
  engine_post p ("error-" +:+ name) (download_size_of size (fst head)) cover w
    (download_if_not_exists net ge url output_path file_name extension size cover w).
Proof.
  intros head name p.
  destruct (download_if_not_exists_eq net ge url output_path file_name extension size cover w)
    as [rs ->].
  fold head name p. set (d := download_size_of size (fst head)).
  set (w1 := add_log rs (head_asked url w)). unfold bind.
  destruct (files w !! p) as [c|] eqn:Hp.
  - rewrite (inspect_present _ _ _ _ _ _ _ c) by exact Hp. cbn zeta.
    destruct (truthy_int d) eqn:Ht; [|by apply engine_post_save].
    destruct d as [d'|]; [|discriminate Ht]. cbn [default from_option id].
    destruct (len c =? 0) eqn:E0; [by apply engine_post_save|].
    destruct (len c =? d') eqn:Ed.
    { apply Z.eqb_eq in Ed. apply engine_post_skip; try done.
      pose proof (len_nonneg c). lia. }
    destruct cover; cbn [negb].
    + destruct (d' >=? len c) eqn:Eg; [|by apply engine_post_save].
      apply Z.geb_le in Eg. apply engine_post_skip; try done.
      pose proof (len_nonneg c). lia.
    + unfold bind, raise. rewrite stream_download_eq. cbn zeta.
      unfold engine_post.
      destruct (is_error_status _); [|destruct (broken _)]; cbn;
        (split; [effects_done | split; [lia | split; discriminate]]).
  - rewrite inspect_absent by exact Hp. by apply engine_post_save.
Qed.

(** X4: the value a call returns names the counter that moved.  A call that
    returns true has added one to [files_downloaded] and left [files_skipped]
    and [bytes_skipped] alone; a call that returns false has added one to
    [files_skipped] and the resolved size to [bytes_skipped], made the HEAD
    request only, and left [files_downloaded], [bytes_read] and every file
    alone. *)
Theorem return_value_names_the_counter
        net ge url output_path file_name extension size is_cover w :
  let head := head_of net (clock w) url in
  let d := download_size_of size (fst head) in
  let res := download_if_not_exists net ge url output_path file_name extension size is_cover w in
  (fst res = Returned true ->
   files_downloaded (session (snd res)) = files_downloaded (session w) + 1 /\
   files_skipped (session (snd res)) = files_skipped (session w) /\
   bytes_skipped (session (snd res)) = bytes_skipped (session w)) /\
  (fst res = Returned false ->
   files_skipped (session (snd res)) = files_skipped (session w) + 1 /\
   bytes_skipped (session (snd res)) = bytes_skipped (session w) + default 0 d /\
   files_downloaded (session (snd res)) = files_downloaded (session w) /\
   bytes_read (session (snd res)) = bytes_read (session w) /\
   files (snd res) = files w /\
   clock (snd res) = S (clock w)).
Proof.
  intros head d res.
  destruct (engine_effects net ge url output_path file_name extension size is_cover w)
    as (_ & _ & H1 & H2).
  split; [exact H1 | exact H2].
Qed.

(** X5: no counter of the session ever goes down over a call of the engine,
    whether the call returns or raises. *)
Theorem counters_never_decrease
        net ge url output_path file_name extension size is_cover w :
  session_le (session w)
    (session (snd (download_if_not_exists net ge url output_path file_name extension size
                     is_cover w))).
Proof.
  by destruct (engine_effects net ge url output_path file_name extension size is_cover w)
    as ((H & _) & _).
Qed.

(** X6: a call of the engine issues the HEAD request and at most two GET
    requests, and at most one GET for a resource that is not a cover. *)
Theorem at_most_three_requests
        net ge url output_path file_name extension size is_cover w :
  let res := download_if_not_exists net ge url output_path file_name extension size is_cover w in
  (clock w < clock (snd res) <= clock w + 3)%nat /\
  (is_cover = false -> (clock (snd res) <= clock w + 2)%nat).
Proof.
  intros res.
  destruct (engine_effects net ge url output_path file_name extension size is_cover w)
    as ((_ & H & _) & H' & _).
  fold res in H, H'. split; [destruct is_cover; lia|].
  intros ->. lia.
Qed.

(** X7: a call of the engine writes to the file it resolves and to the error
    file of that name at most: every other file, and every directory, is as
    it was, whether the call returns or raises. *)
Theorem engine_writes_two_paths_at_most
        net ge url output_path file_name extension size is_cover w q :
  let head := head_of net (clock w) url in
  let name := resolve_file_name ge file_name extension (snd head) in
  let res := download_if_not_exists net ge url output_path file_name extension size is_cover w in
  q <> os_path_join output_path name -> q <> "error-" +:+ name ->
  files (snd res) !! q = files w !! q /\ dirs (snd res) = dirs w.
Proof.
  intros head name res Hp He.
  destruct (engine_effects net ge url output_path file_name extension size is_cover w)
    as ((_ & _ & Hd & Hf) & _).
  split; [by apply Hf | exact Hd].
Qed.

Lemma engine_writes_two_paths_at_most_witness :
  let w := world_of {["out/a.zip" := zeros 100; "out/b.zip" := zeros 7]} in
  let res := download_if_not_exists (steady_remote (Some 200) None 200 200) guess_few
               "u" "out" "a" (Some "zip") None false w in
  files (snd res) !! "out/b.zip" = files w !! "out/b.zip" /\ dirs (snd res) = dirs w.
Proof.
  refine (engine_writes_two_paths_at_most (steady_remote (Some 200) None 200 200) guess_few
            "u" "out" "a" (Some "zip") None false
            (world_of {["out/a.zip" := zeros 100; "out/b.zip" := zeros 7]}) "out/b.zip" _ _).
  - vm_compute. discriminate.
  - vm_compute. discriminate.
Defined.

Lemma save_download_error net url p d existing cover w :
  is_error_status (status_code (get_of net (clock w) true url)) = true ->
  exists w',
    save_download net url p (Some d) existing cover w =
      (Raised (HTTPError (status_code (get_of net (clock w) true url))), w') /\
    files w' = <[p := []]> (files w) /\ session w' = session w.
Proof.
  intros H. destruct w as [[br bs fd fsk] fs ds lg ck]. cbn in H.
  unfold save_download, download_with_retry, try_except. run.
  rewrite stream_download_eq. cbn. rewrite H. cbn. by eexists.
Qed.

(** X8: a download over a local file that the remote refuses empties the
    file.  For a cover whose known remote size is smaller than the local
    file, a GET answered with a 4xx or 5xx status makes the call raise the
    HTTP error, and the local file is left with no bytes: it was opened for
    writing before the request was made. *)
Theorem refused_download_empties_the_file
        net ge url output_path file_name extension size w c d :
  let head := head_of net (clock w) url in
  let name := resolve_file_name ge file_name extension (snd head) in
  let path := os_path_join output_path name in
  let r := get_of net (S (clock w)) true url in
  let res := download_if_not_exists net ge url output_path file_name extension size true w in
  download_size_of size (fst head) = Some d -> 0 < d ->
  files w !! path = Some c -> d < len c ->
  is_error_status (status_code r) = true ->
  fst res = Raised (HTTPError (status_code r)) /\
  files (snd res) !! path = Some [] /\
  session (snd res) = session w.
Proof.
  intros head name path r res Hd Hd0 Hc Hlt Hr.
  destruct (engine_sizes_differ net ge url output_path file_name extension size true
              w c d Hd ltac:(lia) Hc ltac:(lia) ltac:(lia)) as (w2 & Hf & Hs & Hk & Heq).
  cbn [negb] in Heq.
  assert (E : (d >=? len c) = false) by (rewrite Z.geb_leb; apply Z.leb_gt; lia).
  rewrite E in Heq.
  destruct (save_download_error net url path d (Some (len c)) true
              (add_log [mkLog WARNING "New file is smaller, so downloading it" []] w2))
    as (w' & H1 & H2 & H3).
  { cbn [clock add_log]. rewrite Hk. exact Hr. }
  cbn [clock add_log] in H1. rewrite Hk in H1.
  subst res. unfold path, name, head in *. rewrite Heq, H1. cbn [fst snd].
  rewrite H2, H3. cbn. rewrite lookup_insert_eq. by rewrite Hs.
Qed.

Lemma refused_download_empties_the_file_witness :
  let net := steady_remote (Some 150) (Some "image/png") 404 9 in
  let res := download_if_not_exists net guess_few "u" "out" "c1" (Some "png") None true
               (world_of {["out/c1.png" := zeros 200]}) in
  fst res = Raised (HTTPError 404) /\
  files (snd res) !! "out/c1.png" = Some [] /\
  session (snd res) = fresh_session.
Proof.
  refine (refused_download_empties_the_file
            (steady_remote (Some 150) (Some "image/png") 404 9) guess_few
            "u" "out" "c1" (Some "png") None (world_of {["out/c1.png" := zeros 200]})
            (zeros 200) 150 _ _ _ _ _).
  - reflexivity.
  - lia.
  - vm_compute. reflexivity.
  - vm_compute. reflexivity.
  - reflexivity.
Defined.



(** X10: a broken transfer is raised when there is no retry left.  Without
    retry (a resource that is not a cover) the first break is raised after
    one request; with retry, a second break is raised after two.  In both
    cases the file keeps the bytes of the last transfer and
    [files_downloaded] has not moved. *)
Theorem broken_transfer_is_raised net url p w :
  let r1 := get_of net (clock w) true url in
  let r2 := get_of net (S (clock w)) true url in
  is_error_status (status_code r1) = false -> broken r1 = true ->
  (let res := download_with_retry net url p false w in
   fst res = Raised ChunkedEncodingError /\
   files (snd res) = <[p := body r1]> (files w) /\
   files_downloaded (session (snd res)) = files_downloaded (session w) /\
   clock (snd res) = S (clock w)) /\
  (is_error_status (status_code r2) = false -> broken r2 = true ->
   let res := download_with_retry net url p true w in
   fst res = Raised ChunkedEncodingError /\
   files (snd res) = <[p := body r2]> (files w) /\
   files_downloaded (session (snd res)) = files_downloaded (session w) /\
   clock (snd res) = S (S (clock w))).
Proof.
  intros r1 r2 He Hb. subst r1 r2.
  destruct w as [[br bs fd fsk] fs ds lg ck]. cbn in *.
  unfold download_with_retry, try_except. split.
  - rewrite stream_download_eq. cbn. rewrite He, Hb. cbn. done.
  - intros He2 Hb2.
    rewrite stream_download_eq. cbn. rewrite He, Hb. cbn. run.
    rewrite stream_download_eq. cbn. rewrite He2, Hb2. cbn.
    by rewrite insert_insert_eq.
Qed.

Lemma broken_transfer_is_raised_witness :
  let net := mkRemote (fun _ _ => (Some 5, None))
               (fun _ _ _ => mkResponse 200 [zeros 2] true) in
  let res := download_with_retry net "u" "out/a.zip" false (world_of ∅) in
  fst res = Raised ChunkedEncodingError /\
  files (snd res) = <["out/a.zip" := zeros 2]> ∅ /\
  files_downloaded (session (snd res)) = 0 /\
  clock (snd res) = 1%nat.
Proof.
  refine (proj1 (broken_transfer_is_raised
           (mkRemote (fun _ _ => (Some 5, None)) (fun _ _ _ => mkResponse 200 [zeros 2] true))
           "u" "out/a.zip" (world_of ∅) _ _)).
  - reflexivity.
  - reflexivity.
Defined.

(** *** Files and directories *)


Lemma gitignore_is_not_the_template (directory : string) :
  os_path_join directory ".gitignore" <> GIT_IGNORE_FILE.
Proof.
  unfold os_path_join, GIT_IGNORE_FILE.
  change (starts_with "/" ".gitignore") with false. cbn iota.
  destruct (String.eqb directory EmptyString || ends_with_sep directory) eqn:E; intros H.
  - apply (f_equal list_ascii_of_string) in H. rewrite list_ascii_app in H.
    change (list_ascii_of_string "for-output_dir.gitignore")
      with (list_ascii_of_string "for-output_dir" ++ list_ascii_of_string ".gitignore")%list
      in H.
    apply app_inv_tail, list_ascii_inj in H. subst directory. discriminate E.
  - apply (f_equal list_ascii_of_string) in H. rewrite !list_ascii_app in H.
    change (list_ascii_of_string "for-output_dir.gitignore")
      with ((list_ascii_of_string "for-output_di" ++ list_ascii_of_string "r")
              ++ list_ascii_of_string ".gitignore")%list in H.
    rewrite app_assoc in H. apply app_inv_tail in H.
    apply app_inj_tail in H as [_ H]. discriminate H.
Qed.

(** X12: [copy_git_ignore] raises [FileNotFoundError] and changes no file
    when the template is missing from the working directory; otherwise the
    [.gitignore] of the directory holds the bytes of the template whatever it
    held before, and the template and every other file are as they were.  No
    request is made and no counter moves. *)
Theorem copy_git_ignore_overwrites directory w :
  let res := copy_git_ignore directory w in
  let target := os_path_join directory ".gitignore" in
  (files w !! GIT_IGNORE_FILE = None ->
   fst res = Raised (FileNotFoundError GIT_IGNORE_FILE) /\ files (snd res) = files w) /\
  (forall template, files w !! GIT_IGNORE_FILE = Some template ->
   fst res = Returned tt /\
   files (snd res) !! target = Some template /\
   files (snd res) !! GIT_IGNORE_FILE = Some template /\
   (forall q, q <> target -> files (snd res) !! q = files w !! q)) /\
  session (snd res) = session w /\ clock (snd res) = clock w.
Proof.
  destruct w as [s fs ds lg ck]. unfold copy_git_ignore. run.
  destruct (fs !! GIT_IGNORE_FILE) as [c|] eqn:E; cbn.
  - split; [discriminate|]. split; [|done].
    intros template [= <-]. repeat split.
    + apply lookup_insert_eq.
    + rewrite lookup_insert_ne; [done|]. apply gitignore_is_not_the_template.
    + intros q Hq. by rewrite lookup_insert_ne.
  - split; [done|]. split; [discriminate|done].
Qed.

Section Runs.
Variable net : Remote.
Variable guess_extension : string -> option string.
Variable sanitize_filename : string -> string.
Variable heavily_sanitize_filename : string -> string.
Variable search_subdomain : string -> option string.
Variable parse_library_page : bytes -> Exc + LibraryData.
Variable parse_product_page : bytes -> Exc + ProductData.

Local Abbreviation run_download :=
  (download net guess_extension sanitize_filename heavily_sanitize_filename search_subdomain
            parse_library_page parse_product_page).

(** X13: a run in a working directory without the template stops before
    anything is asked of the platform: it raises [FileNotFoundError], no
    request was made, no file was written, and the counters are at zero. *)
Theorem run_without_template_asks_nothing output_root_dir w :
  let res := run_download output_root_dir w in
  files w !! GIT_IGNORE_FILE = None ->
  fst res = Raised (FileNotFoundError GIT_IGNORE_FILE) /\
  clock (snd res) = clock w /\
  files (snd res) = files w /\
  session (snd res) = fresh_session.
Proof.
  intros res H. subst res. destruct w as [s fs ds lg ck]. cbn in H.
  unfold download, new_session, create_dir_with_log, copy_git_ignore. run.
  destruct (bool_decide (output_root_dir ∈ ds)); cbn; rewrite H; done.
Qed.

End Runs.

Lemma run_without_template_asks_nothing_witness :
  let res := download scenario_remote guess_few keep_name keep_name subdomain_of_ada
               (fun _ => inr (library_of None)) (fun _ => inr product_page)
               "out" (world_of ∅) in
  fst res = Raised (FileNotFoundError GIT_IGNORE_FILE) /\
  clock (snd res) = 0%nat /\ files (snd res) = ∅ /\ session (snd res) = fresh_session.
Proof.
  refine (run_without_template_asks_nothing scenario_remote guess_few keep_name keep_name
            subdomain_of_ada (fun _ => inr (library_of None)) (fun _ => inr product_page)
            "out" (world_of ∅) _).
  reflexivity.
Defined.

(** *** The records of the pages *)

(** X14: [get_content_items] keeps the items of type [file], in the order of
    the page, and drops the others; it never raises, and all it does besides
    is log. *)
Theorem content_items_are_the_files (data : list ContentItem) w :
  let res := get_content_items data w in
  fst res = Returned (List.filter ci_is_file data) /\
  files (snd res) = files w /\ dirs (snd res) = dirs w /\
  session (snd res) = session w /\ clock (snd res) = clock w.
Proof.
  revert w. induction data as [|c data IH]; intros w; [done|].
  destruct w as [s fs ds lg ck].
  cbn [get_content_items List.filter]. unfold ContentItem_init. run.
  destruct (truthy_str (ci_external_link_url c)); cbn;
    destruct (ci_is_file c) eqn:E; cbn; rewrite ?E; cbn;
    match goal with
    | |- context [get_content_items data ?w'] =>
        destruct (IH w') as (H1 & H2 & H3 & H4 & H5);
        destruct (get_content_items data w') as [[items|e] w'']; cbn in *;
        try discriminate H1; try (injection H1 as ->); done
    end.
Qed.

(** X15: an item without a download url costs nothing: whether it has an
    external link or not, the step returns, and all it leaves is one record
    at WARNING; no request is made, no file or directory is made, and no
    counter moves. *)
Theorem item_without_url_is_only_logged
        net ge sanitize product_dir_path library_product
        lib_prod_idx product_count content_item_count cnt_itm_idx content_item w :
  let res := download_content_item net ge sanitize product_dir_path library_product
               lib_prod_idx product_count content_item_count cnt_itm_idx content_item w in
  truthy_str (ci_download_url content_item) = false ->
  fst res = Returned tt /\
  (exists m a, snd res = add_log [mkLog WARNING m a] w).
Proof.
  intros res H. subst res. destruct w as [s fs ds lg ck].
  unfold download_content_item, get_full_download_url. rewrite H. cbn [truthy_str].
  destruct (truthy_str (ci_external_link_url content_item)); run;
    (split; [done | by do 2 eexists]).
Qed.

Lemma item_without_url_is_only_logged_witness :
  let w := world_of ∅ in
  let res := download_content_item scenario_remote guess_few keep_name "out/p"
               (product_of None) 0 1 2 1 item_link_only w in
  fst res = Returned tt /\ (exists m a, snd res = add_log [mkLog WARNING m a] w).
Proof.
  refine (item_without_url_is_only_logged scenario_remote guess_few keep_name "out/p"
            (product_of None) 0 1 2 1 item_link_only (world_of ∅) _).
  reflexivity.
Defined.

(** *** The orchestrator, step by step *)

(** X16: the number of covers the loop reports is the number of files it has
    counted as downloaded.  Whenever the loop over the covers returns, what it
    adds to [download_count] is what it has added to [files_downloaded], and
    that is at most the number of covers that are not external. *)
Theorem covers_reported_are_covers_counted
        net ge product_dir_path (cs : list ProductCover) download_count w m w' :
  download_cover_loop net ge product_dir_path cs download_count w = (Returned m, w') ->
  files_downloaded (session w') - files_downloaded (session w) = m - download_count /\
  download_count <= m <=
    download_count + len_list (List.filter (fun c => negb (cover_is_external c)) cs).
Proof.
  revert download_count w. induction cs as [|c cs IH]; intros n w H.
  - cbn in H. injection H as <- <-. unfold len_list. cbn. lia.
  - cbn [download_cover_loop] in H. cbn [List.filter].
    destruct (cover_is_external c) eqn:E; cbn [negb].
    + unfold bind, logging, modify in H. cbn in H.
      apply IH in H. cbn in H. exact H.
    + unfold bind in H.
      pose proof (engine_effects net ge (default EmptyString (cover_get_url c))
                    product_dir_path (fst (cover_get_file_name_and_extension c))
                    (snd (cover_get_file_name_and_extension c)) None true w)
        as (_ & _ & Ht & Hf).
      cbv zeta in Ht, Hf.
      destruct (download_if_not_exists _ _ _ _ _ _ _ _ _) as [[b|e] w1]; [|discriminate H].
      cbn [fst snd] in Ht, Hf. apply IH in H.
      unfold len_list in *. cbn [length]. destruct b.
      * destruct (Ht eq_refl) as (H1 & _). lia.
      * destruct (Hf eq_refl) as (_ & _ & H1 & _). lia.
Qed.

Lemma covers_reported_are_covers_counted_witness :
  let w := world_of ∅ in
  let res := download_cover_loop scenario_remote guess_few "out/p"
               [cover_external; cover_internal] 0 w in
  fst res = Returned 1 /\
  files_downloaded (session (snd res)) - files_downloaded (session w) = 1 - 0.
Proof.
  cbv zeta. split; [vm_compute; reflexivity|].
  refine (proj1 (covers_reported_are_covers_counted scenario_remote guess_few "out/p"
            [cover_external; cover_internal] 0 (world_of ∅) 1
            (snd (download_cover_loop scenario_remote guess_few "out/p"
                    [cover_external; cover_internal] 0 (world_of ∅))) _)).
  vm_compute. reflexivity.
Defined.

(** X17: the store page is asked for without the session, and a 404 is let
    through.  When the download page of a product arrives and parses, and the
    GET for the store page, sent without the cookies, is answered with 404,
    the constructor returns the product all the same: the body of the 404 is
    written as [product-page.html], and both pages are counted in
    [files_downloaded] and [bytes_read]. *)
Theorem store_page_404_is_kept
        net parse_product_page product_dir product_page_url w data :
  let r := get_of net (clock w) true product_page_url in
  let store := get_of net (S (clock w)) false (purchase_product_long_url data) in
  let res := GumroadProductDownloader_init net parse_product_page product_dir
               product_page_url w in
  completes r -> body r <> [] -> parse_product_page (body r) = inr data ->
  status_code store = 404 -> broken store = false ->
  fst res = Returned data /\
  files (snd res) !! os_path_join product_dir PRODUCT_PAGE_HTML = Some (body store) /\
  files_downloaded (session (snd res)) = files_downloaded (session w) + 2 /\
  bytes_read (session (snd res)) = bytes_read (session w) + len (body r) + len (body store) /\
  clock (snd res) = S (S (clock w)).
Proof.
  intros r store res [He Hb] Hne Hp Hs Hbs. subst res r store.
  destruct w as [[br bs fd fsk] fs ds lg ck]. cbn in *.
  unfold GumroadProductDownloader_init, GumroadProduct_init, get_content,
    get_content_no_session, do_get, read_content, write_file_with_log. run.
  rewrite He. cbn. rewrite Hb. cbn.
  destruct (body (get_of net ck true product_page_url)) as [|b0 page] eqn:Hbody; [done|].
  rewrite Hp. cbn. rewrite Hs. cbn. rewrite Hbs. cbn.
  rewrite lookup_insert_eq. repeat split; lia.
Qed.

Lemma store_page_404_is_kept_witness :
  let net := mkRemote (fun _ _ => (None, None))
               (fun _ auth _ => if auth then mkResponse 200 [zeros 4] false
                                else mkResponse 404 [zeros 9] false) in
  let res := GumroadProductDownloader_init net (fun _ => inr product_page) "out/p"
               "https://app.gumroad.com/d/brush-pack" (world_of ∅) in
  fst res = Returned product_page /\
  files (snd res) !! "out/p/product-page.html" = Some (zeros 9) /\
  files_downloaded (session (snd res)) = 2.
Proof.
  pose proof (store_page_404_is_kept
           (mkRemote (fun _ _ => (None, None))
              (fun _ auth _ => if auth then mkResponse 200 [zeros 4] false
                               else mkResponse 404 [zeros 9] false))
           (fun _ => inr product_page) "out/p" "https://app.gumroad.com/d/brush-pack"
           (world_of ∅) product_page) as H.
  cbv zeta in H. destruct H as (H1 & H2 & H3 & _).
  - split; reflexivity.
  - discriminate.
  - reflexivity.
  - reflexivity.
  - reflexivity.
  - split; [exact H1 | split; [exact H2 | exact H3]].
Defined.

(** X18: a library page that does not parse is kept on disk.  When the GET
    for the library page completes and the constructor of [Library] raises,
    [LibraryDownloader] raises the same exception, after the page was written
    to [library.html] and counted; no other request is made. *)
Theorem unparsed_library_page_is_kept net parse_library_page output_root_dir w e :
  let r := get_of net (clock w) true LIBRARY_URL in
  let res := LibraryDownloader_init net parse_library_page output_root_dir w in
  completes r -> parse_library_page (body r) = inl e ->
  fst res = Raised e /\
  files (snd res) = <[os_path_join output_root_dir LIBRARY_HTML := body r]> (files w) /\
  files_downloaded (session (snd res)) = files_downloaded (session w) + 1 /\
  clock (snd res) = S (clock w).
Proof.
  intros r res [He Hb] Hp. subst res r.
  destruct w as [[br bs fd fsk] fs ds lg ck]. cbn in *.
  unfold LibraryDownloader_init, create_dir_with_log, get_content, do_get, read_content,
    write_file_with_log. run.
  destruct (bool_decide (output_root_dir ∈ ds)); cbn;
    rewrite He; cbn; rewrite Hb; cbn; rewrite Hp; cbn; done.
Qed.

Lemma unparsed_library_page_is_kept_witness :
  let res := LibraryDownloader_init scenario_remote
               (fun _ => inl (PyException "Found 0 json blocks, expected 1")) "out"
               (world_of ∅) in
  fst res = Raised (PyException "Found 0 json blocks, expected 1") /\
  files (snd res) = <["out/library.html" := zeros 4]> ∅.
Proof.
  pose proof (unparsed_library_page_is_kept scenario_remote
           (fun _ => inl (PyException "Found 0 json blocks, expected 1")) "out"
           (world_of ∅) (PyException "Found 0 json blocks, expected 1")) as H.
  cbv zeta in H. destruct H as (H1 & H2 & _).
  - split; reflexivity.
  - reflexivity.
  - split; [exact H1 | exact H2].
Defined.

(** X19: the directory of a product.  [get_creator_product_path] never
    raises and all it does besides is log.  The first component is the
    sanitised sub-domain of the creator's profile url where the search finds
    one, the sanitised name of the creator where it does not, and the
    sanitised [[id <creator_id>]] for a product without creator; the second
    is the sanitised name of the product. *)
Theorem creator_directory heavily_sanitize search (p : LibraryProduct) w :
  let res := get_creator_product_path heavily_sanitize search p w in
  let under d := Returned (os_path_join (heavily_sanitize d) (heavily_sanitize (product_name p))) in
  (exists rs, snd res = add_log rs w) /\
  (forall c g, creator p = Some c -> search (profile_url c) = Some g -> g <> EmptyString ->
     res = (under g, w)) /\
  (forall c, creator p = Some c -> search (profile_url c) = None ->
     fst res = under (creator_name c)) /\
  (creator p = None -> fst res = under ("[id " +:+ creator_id p +:+ "]")).
Proof.
  destruct w as [s fs ds lg ck].
  unfold get_creator_product_path, get_creator_dir_name, get_creator_name. run.
  destruct (creator p) as [c|]; cbn.
  - destruct (search (profile_url c)) as [g|] eqn:Eg; cbn.
    + destruct g as [|a g]; cbn.
      * split; [exists []; unfold add_log; cbn; by rewrite app_nil_r|].
        split; [intros c' g' [= <-] Hs Hg; rewrite Eg in Hs; injection Hs as <-;
                by destruct Hg|].
        split; [intros c' [= <-] Hn; by rewrite Eg in Hn | discriminate].
      * split; [exists []; unfold add_log; cbn; by rewrite app_nil_r|].
        split; [intros c' g' [= <-] Hs; rewrite Eg in Hs; by injection Hs as <-|].
        split; [intros c' [= <-] Hn; by rewrite Eg in Hn | discriminate].
    + split; [by eexists|].
      split; [intros c' g' [= <-] Hs; by rewrite Eg in Hs|].
      split; [by intros c' [= <-] _ | discriminate].
  - split; [by eexists|].
    split; [discriminate|]. split; [discriminate | done].
Qed.

Lemma prefixed_url_has_platform_name (rest : string) :
  str_in "gumroad.com" (DOWNLOAD_URL_PREFIX +:+ rest) = true.
Proof. vm_compute. reflexivity. Qed.

Lemma prefixed_url_nonempty (rest : string) : DOWNLOAD_URL_PREFIX +:+ rest <> EmptyString.
Proof. discriminate. Qed.

#[local] Arguments download_if_not_exists : simpl never.

(** X20: a file of a product lands under the id of its item.  For an item
    with a download url, an extension and a declared size, whose file is not
    there yet, and a GET that brings as many bytes as declared: the step
    returns, the directory [<product>/<id>] is made, the file
    [<product>/<id>/<name>.<extension>] holds the body, and one file is
    counted.  The url asked is the platform prefix followed by the url of the
    record, and the size compared is the declared one, not that of the HEAD
    response. *)
Theorem item_lands_under_its_id
        net ge sanitize product_dir_path library_product
        lib_prod_idx product_count content_item_count cnt_itm_idx content_item w dl e d :
  let content_item_dir := os_path_join product_dir_path (ci_id content_item) in
  let path := os_path_join content_item_dir
                (sanitize (ci_file_name content_item) +:+ "." +:+ e) in
  let r := get_of net (S (clock w)) true (DOWNLOAD_URL_PREFIX +:+ dl) in
  let res := download_content_item net ge sanitize product_dir_path library_product
               lib_prod_idx product_count content_item_count cnt_itm_idx content_item w in
  ci_download_url content_item = Some dl -> dl <> EmptyString ->
  ci_extension content_item = Some e -> e <> EmptyString ->
  ci_file_size content_item = Some d -> d <> 0 ->
  files w !! path = None -> completes r -> len (body r) = d ->
  fst res = Returned tt /\
  files (snd res) = <[path := body r]> (files w) /\
  content_item_dir ∈ dirs (snd res) /\
  files_downloaded (session (snd res)) = files_downloaded (session w) + 1.
Proof.
  intros dir path r res Hdl Hdl0 He He0 Hd Hd0 Hp Hr Hlen. subst res.
  destruct w as [[br bs fd fsk] fs ds lg ck]. cbn in Hp, Hr.
  unfold download_content_item, get_full_download_url, ci_get_file_name_and_extension,
    create_dir_with_log, get_creator_name.
  cbv zeta. rewrite Hdl, (truthy_str_Some dl Hdl0), He, Hd.
  cbn [default from_option id].
  rewrite (truthy_str_Some _ (prefixed_url_nonempty dl)), prefixed_url_has_platform_name.
  cbn [negb fst snd]. fold dir. run.
  destruct (truthy_str (ci_external_link_url content_item)); cbn;
    destruct (bool_decide (dir ∈ ds)) eqn:Edir; cbn;
    destruct (creator library_product); cbn.
  all: match goal with
    | |- context [download_if_not_exists ?n ?g ?u ?o ?f ?x ?z false ?W] =>
        pose proof (engine_effects n g u o f x z false W) as Heff;
        destruct Heff as [[_ [_ [Hdirs _]]] _];
        destruct (engine_fresh n g u o f x z false W d) as (w' & H1 & H2 & H3 & H4);
        [ unfold download_size_of; cbn; by destruct d
        | exact Hd0
        | left; cbn [clock snd head_of]; rewrite (resolve_file_name_explicit _ _ _ _ He0);
          exact Hp
        | exact Hr
        | exact Hlen
        | rewrite H1 in Hdirs; rewrite H1; cbn [clock snd files dirs] in H2, Hdirs;
          rewrite (resolve_file_name_explicit _ _ _ _ He0) in H2; cbn;
          rewrite H2, H3; cbn; repeat split; try lia; rewrite Hdirs;
          first [ by apply bool_decide_eq_true in Edir
                | apply elem_of_union; left; by apply elem_of_singleton ] ]
    end.
Qed.

Lemma item_lands_under_its_id_witness :
  let res := download_content_item scenario_remote guess_few keep_name "out/p"
               (product_of None) 0 1 2 0 item_file (world_of ∅) in
  fst res = Returned tt /\
  files (snd res) = <["out/p/item-1/brushes.zip" := zeros 4]> ∅ /\
  "out/p/item-1" ∈ dirs (snd res).
Proof.
  pose proof (item_lands_under_its_id scenario_remote guess_few keep_name "out/p"
           (product_of None) 0 1 2 0 item_file (world_of ∅) "/r/item-1" "zip" 4) as H.
  cbv zeta in H. destruct H as (H1 & H2 & H3 & _).
  - reflexivity.
  - discriminate.
  - reflexivity.
  - discriminate.
  - reflexivity.
  - lia.
  - vm_compute. reflexivity.
  - split; reflexivity.
  - reflexivity.
  - split; [exact H1 | split; [exact H2 | exact H3]].
Defined.

(** *** The sub-domain of a profile url *)

Lemma append_cons (a : ascii) (s t : string) : String a s +:+ t = String a (s +:+ t).
Proof. reflexivity. Qed.

Lemma append_nil_l (s : string) : EmptyString +:+ s = s.
Proof. reflexivity. Qed.

Lemma span_no_dot_at_dot (label rest : string) :
  no_dot label = true ->
  span_no_dot (label +:+ String "." rest) = (label, String "." rest).
Proof.
  induction label as [|c label IH]; intros H; [reflexivity|].
  cbn in H. apply andb_true_iff in H as [Hc Hl].
  rewrite append_cons. cbn [span_no_dot].
  apply negb_true_iff in Hc. rewrite Hc, (IH Hl). reflexivity.
Qed.

Lemma span_no_dot_all (s : string) : no_dot s = true -> span_no_dot s = (s, EmptyString).
Proof.
  induction s as [|c s IH]; intros H; [reflexivity|].
  cbn in H. apply andb_true_iff in H as [Hc Hl].
  cbn [span_no_dot]. apply negb_true_iff in Hc. rewrite Hc, (IH Hl). reflexivity.
Qed.

Lemma no_dot_app (s t : string) : no_dot (s +:+ t) = no_dot s && no_dot t.
Proof.
  induction s as [|c s IH]; [reflexivity|].
  rewrite append_cons. cbn [no_dot]. rewrite IH. apply andb_assoc.
Qed.

Lemma give_back_last (s : string) (c : ascii) :
  is_newline c = false -> give_back (s +:+ String c EmptyString) = Some s.
Proof.
  intros Hc. induction s as [|a s IH].
  - change (give_back (String c EmptyString) = Some EmptyString).
    cbn [give_back]. by rewrite Hc.
  - rewrite append_cons. cbn [give_back]. by rewrite IH.
Qed.

Lemma search_label_before_dot (label rest : string) :
  label <> EmptyString -> no_dot label = true ->
  search_profile_subdomain ("https://" +:+ label +:+ "." +:+ rest) = Some label.
Proof.
  intros Hne Hnd. rewrite !append_cons, !append_nil_l.
  cbn [search_profile_subdomain strip_prefix Ascii.eqb Bool.eqb].
  unfold match_group. rewrite (span_no_dot_at_dot label rest Hnd). cbn [fst snd].
  destruct label; [done|]. reflexivity.
Qed.

Lemma search_label_without_dot (label : string) (c : ascii) :
  label <> EmptyString -> no_dot label = true ->
  is_dot c = false -> is_newline c = false ->
  search_profile_subdomain ("https://" +:+ label +:+ String c EmptyString) = Some label.
Proof.
  intros Hne Hnd Hd Hn. rewrite !append_cons, !append_nil_l.
  cbn [search_profile_subdomain strip_prefix Ascii.eqb Bool.eqb].
  unfold match_group. rewrite span_no_dot_all.
  - destruct label as [|a label]; [done|]. rewrite append_cons. cbn [fst snd].
    by rewrite (give_back_last label c Hn).
  - rewrite no_dot_app, Hnd. cbn. by rewrite Hd.
Qed.

(** X21: the search for the sub-domain of a profile url.  For a url
    [https://<label>.<rest>] whose label is not empty and has no dot, the
    group is the label.  The dot of the pattern is not escaped, so a url
    [https://<label><c>] without any dot matches too, as long as [c] is not a
    newline: the group is then the text after [://] without its last
    character. *)
Theorem subdomain_of_profile_url (label : string) :
  label <> EmptyString -> no_dot label = true ->
  (forall rest,
     search_profile_subdomain ("https://" +:+ label +:+ "." +:+ rest) = Some label) /\
  (forall c,
     is_dot c = false -> is_newline c = false ->
     search_profile_subdomain ("https://" +:+ label +:+ String c EmptyString) = Some label).
Proof.
  intros Hne Hnd. split.
  - intros rest. by apply search_label_before_dot.
  - intros c Hd Hn. by apply search_label_without_dot.
Qed.

Lemma subdomain_of_profile_url_witness :
  search_profile_subdomain "https://ada.gumroad.com" = Some "ada" /\
  search_profile_subdomain "https://localhost" = Some "localhos".
Proof.
  split.
  - exact (proj1 (subdomain_of_profile_url "ada" ltac:(discriminate) eq_refl) "gumroad.com").
  - exact (proj2 (subdomain_of_profile_url "localhos" ltac:(discriminate) eq_refl) "t"%char
             eq_refl eq_refl).
Defined.

(** X22: the directory of a product whose creator has a profile url
    [https://<label>.<rest>], with a label that is not empty and has no dot:
    it is the sanitised label joined with the sanitised name of the product,
    and finding it logs nothing. *)
Theorem product_directory_is_the_subdomain
        heavily_sanitize (p : LibraryProduct) (c : Creator) (label rest : string) w :
  creator p = Some c ->
  profile_url c = "https://" +:+ label +:+ "." +:+ rest ->
  label <> EmptyString -> no_dot label = true ->
  get_creator_product_path heavily_sanitize search_profile_subdomain p w =
  (Returned (os_path_join (heavily_sanitize label) (heavily_sanitize (product_name p))), w).
Proof.
  intros Hc Hu Hne Hnd. destruct w as [s fs ds lg ck].
  unfold get_creator_product_path, get_creator_dir_name. rewrite Hc, Hu.
  rewrite (search_label_before_dot label rest Hne Hnd).
  unfold bind, ret. rewrite (truthy_str_Some label Hne). reflexivity.
Qed.

Lemma product_directory_is_the_subdomain_witness :
  get_creator_product_path keep_name search_profile_subdomain (product_of None) (world_of ∅) =
  (Returned "ada/Brush Pack", world_of ∅).
Proof.
  exact (product_directory_is_the_subdomain keep_name (product_of None)
           (mkCreator "Ada" "https://ada.gumroad.com") "ada" "gumroad.com" (world_of ∅)
           eq_refl eq_refl ltac:(discriminate) eq_refl).
Defined.
